(** * Asteroid impact simulator: the computation core

    A shallow embedding of the numerical core of the simulator:

    - [PopulationService]  (api/src/services/populationService.js)
    - [PhysicsEngine]      (api/src/services/physicsEngine.js)
    - [Simulation3D]       (the Newtonian trajectory integrator)
    - [OrbitalMechanics]   (web/src/utils/orbitalMechanics.ts)

    Number model.  A JavaScript number is idealised as a real number:
    [+], [*], [/], [Math.sqrt], [Math.sin], ... are the exact operations of
    [R].  Non-finite values (NaN, Infinity) have no counterpart; where the
    source could produce one (a negative base under a fractional power, a
    division by zero) the place is pointed out and the theorems stay on
    the inputs where the source is finite.  Where a property is about the
    rounded arithmetic itself the code is embedded a second time over
    IEEE-754 binary64: the Kepler solver ([OrbitalMechanics.Binary64]),
    the velocity and energy stages ([PhysicsEngine.Binary64]) and the
    integrator ([Simulation3D.Binary64]). *)

From Stdlib Require Import Reals Lra Lia ZArith String List Bool.
From Stdlib Require Floats.
Import ListNotations.

Open Scope R_scope.

(** ** The JavaScript operations the core uses *)

Module JS.

(** Comparisons of numbers, as booleans. *)
Definition ltb (x y : R) : bool := if Rlt_dec x y then true else false.
Definition leb (x y : R) : bool := if Rle_dec x y then true else false.
Definition gtb (x y : R) : bool := ltb y x.
Definition geb (x y : R) : bool := leb y x.
Definition eqb (x y : R) : bool := if Req_dec_T x y then true else false.

(** [Math.floor], [Math.round] (round half up), [Math.ceil] and the
    truncation towards zero that [%] is defined with. *)
Definition Math_floor (x : R) : Z := Int_part x.
Definition Math_round (x : R) : Z := Int_part (x + 1 / 2).
Definition Math_ceil (x : R) : Z := (- Int_part (- x))%Z.
Definition trunc (x : R) : Z :=
  if Rle_dec 0 x then Int_part x else (- Int_part (- x))%Z.

(** [x % y]: the remainder has the sign of the dividend. *)
Definition rem (x y : R) : R := x - y * IZR (trunc (x / y)).

(** [Math.pow x y] for a fractional exponent [y > 0]: [exp (y * ln x)] on
    a positive base and [0] at [x = 0].  On a negative base JavaScript
    yields NaN; the model returns [0] there.  (Integer exponents that are
    literals in the source, [Math.pow(r, 3)] and [** 2], are written
    with [^].) *)
Definition Math_pow (x y : R) : R :=
  if Rlt_dec 0 x then Rpower x y else 0.

(** [Math.log10], for a positive argument. *)
Definition Math_log10 (x : R) : R := ln x / ln 10.

(** [Math.atan2 y x], by quadrant. *)
Definition Math_atan2 (y x : R) : R :=
  if Rlt_dec 0 x then atan (y / x)
  else if Rlt_dec x 0 then
    (if Rle_dec 0 y then atan (y / x) + PI else atan (y / x) - PI)
  else if Rlt_dec 0 y then PI / 2
  else if Rlt_dec y 0 then - (PI / 2)
  else 0.

End JS.

(** ** populationService.js *)

Module PopulationService.

Record City := mkCity {
  name : string;
  lat : R;
  lon : R;
  population : R;
  radius : R
}.

(** Fallback population density data (people per km^2). *)
Definition fallbackDensity_rural : R := 50.

Definition tokyo : City := mkCity "Tokyo" 35.6762 139.6503 37400000 40.

(** The registry, in the order of the source. *)
Definition majorCities : list City :=
  [ tokyo;
    mkCity "Delhi" 28.7041 77.1025 30300000 35;
    mkCity "Shanghai" 31.2304 121.4737 27100000 35;
    mkCity "São Paulo" (-23.5505) (-46.6333) 22000000 30;
    mkCity "Mexico City" 19.4326 (-99.1332) 21800000 30;
    mkCity "Cairo" 30.0444 31.2357 20900000 30;
    mkCity "Mumbai" 19.0760 72.8777 20400000 25;
    mkCity "Beijing" 39.9042 116.4074 20400000 30;
    mkCity "Dhaka" 23.8103 90.4125 21000000 25;
    mkCity "Osaka" 34.6937 135.5023 19300000 25;
    mkCity "New York" 40.7128 (-74.0060) 18800000 30;
    mkCity "Karachi" 24.8607 67.0011 16000000 25;
    mkCity "Buenos Aires" (-34.6037) (-58.3816) 15000000 25;
    mkCity "Istanbul" 41.0082 28.9784 15400000 25;
    mkCity "Kolkata" 22.5726 88.3639 14900000 20;
    mkCity "Manila" 14.5995 120.9842 13900000 20;
    mkCity "Lagos" 6.5244 3.3792 14000000 20;
    mkCity "Rio de Janeiro" (-22.9068) (-43.1729) 13500000 20;
    mkCity "Guangzhou" 23.1291 113.2644 13100000 20;
    mkCity "Los Angeles" 34.0522 (-118.2437) 12400000 25;
    mkCity "Moscow" 55.7558 37.6173 12500000 25;
    mkCity "Paris" 48.8566 2.3522 11000000 20;
    mkCity "London" 51.5074 (-0.1278) 9500000 20;
    mkCity "Chicago" 41.8781 (-87.6298) 8900000 20;
    mkCity "Bangalore" 12.9716 77.5946 12300000 20;
    mkCity "Toronto" 43.6532 (-79.3832) 6200000 15;
    mkCity "Montreal" 45.5017 (-73.5673) 4200000 15;
    mkCity "Vancouver" 49.2827 (-123.1207) 2600000 12;
    mkCity "Sydney" (-33.8688) 151.2093 5300000 15;
    mkCity "Melbourne" (-37.8136) 144.9631 5000000 15;
    mkCity "Berlin" 52.5200 13.4050 3800000 15;
    mkCity "Madrid" 40.4168 (-3.7038) 6600000 15;
    mkCity "Rome" 41.9028 12.4964 4300000 15;
    mkCity "Barcelona" 41.3874 2.1686 5600000 15;
    mkCity "San Francisco" 37.7749 (-122.4194) 4700000 15;
    mkCity "Seattle" 47.6062 (-122.3321) 4000000 15;
    mkCity "Boston" 42.3601 (-71.0589) 4900000 15;
    mkCity "Miami" 25.7617 (-80.1918) 6200000 15;
    mkCity "Atlanta" 33.7490 (-84.3880) 6000000 15;
    mkCity "Washington DC" 38.9072 (-77.0369) 6300000 15;
    mkCity "Houston" 29.7604 (-95.3698) 7100000 18;
    mkCity "Dallas" 32.7767 (-96.7970) 7600000 18;
    mkCity "Philadelphia" 39.9526 (-75.1652) 6200000 15;
    mkCity "Phoenix" 33.4484 (-112.0740) 4900000 15 ].

(** Haversine distance between two coordinates, in km. *)
Definition calculateDistance (lat1 lon1 lat2 lon2 : R) : R :=
  let R_km := 6371 in
  let dLat := (lat2 - lat1) * PI / 180 in
  let dLon := (lon2 - lon1) * PI / 180 in
  let a := sin (dLat / 2) * sin (dLat / 2) +
           cos (lat1 * PI / 180) * cos (lat2 * PI / 180) *
           sin (dLon / 2) * sin (dLon / 2) in
  let c := 2 * JS.Math_atan2 (sqrt a) (sqrt (1 - a)) in
  R_km * c.

(** Overlap area (km^2) between the blast disc and the city disc. *)
Definition calculateOverlapArea (distance blastRadius cityRadius : R) : R :=
  if JS.eqb distance 0 then
    PI * Rmin blastRadius cityRadius ^ 2
  else if JS.geb distance (blastRadius + cityRadius) then
    0
  else if JS.leb (distance + cityRadius) blastRadius then
    PI * cityRadius * cityRadius
  else if JS.leb (distance + blastRadius) cityRadius then
    PI * blastRadius * blastRadius
  else
    let d := distance in
    let r1 := blastRadius in
    let r2 := cityRadius in
    let part1 := r1 * r1 * acos ((d * d + r1 * r1 - r2 * r2) / (2 * d * r1)) in
    let part2 := r2 * r2 * acos ((d * d + r2 * r2 - r1 * r1) / (2 * d * r2)) in
    let part3 := 0.5 * sqrt ((- d + r1 + r2) * (d + r1 - r2) *
                             (d - r1 + r2) * (d + r1 + r2)) in
    part1 + part2 - part3.

Record AffectedCity := mkAffected {
  ac_name : string;
  ac_distance : Z;
  ac_population : R;
  affectedPopulation : Z;
  overlapFactor : R
}.

(** The rounded population of one city under the blast disc: the
    [affectedPop] of the loop body of [getPopulationInRadius]. *)
Definition affectedPop (distance radiusKm : R) (city : City) : Z :=
  let cityArea := PI * radius city * radius city in
  let cityDensity := population city / cityArea in
  let overlapArea := calculateOverlapArea distance radiusKm (radius city) in
  JS.Math_round (overlapArea * cityDensity).

(** One turn of the loop of [getPopulationInRadius]: the entry pushed for
    [city], if any. *)
Definition cityExposure (lat0 lon0 radiusKm : R) (city : City)
  : option AffectedCity :=
  let distance := calculateDistance lat0 lon0 (lat city) (lon city) in
  if JS.leb distance (radiusKm + radius city) then
    let pop := affectedPop distance radiusKm city in
    if (0 <? pop)%Z then
      Some (mkAffected (name city) (JS.Math_round distance)
              (population city) pop (IZR pop / population city))
    else None
  else None.

(** Nearest city of the registry and its distance; ties keep the
    earlier city (the comparison is strict). *)
Definition findNearestCity (lat0 lon0 : R) : City * R :=
  fold_left
    (fun (acc : City * R) (city : City) =>
       let distance := calculateDistance lat0 lon0 (lat city) (lon city) in
       if JS.ltb distance (snd acc) then (city, distance) else acc)
    majorCities
    (tokyo, calculateDistance lat0 lon0 (lat tokyo) (lon tokyo)).

Definition estimateDensityFromNearestCity
  (distanceKm cityPopulation cityRadius : R) : R :=
  let cityDensity := cityPopulation / (PI * cityRadius * cityRadius) in
  if JS.ltb distanceKm 50 then cityDensity * exp (- distanceKm / 30)
  else if JS.ltb distanceKm 200 then fallbackDensity_rural
  else 10.

Definition isOcean (lat0 lon0 : R) : bool :=
  JS.gtb (snd (findNearestCity lat0 lon0)) 500.

Record PopData := mkPopData {
  totalPopulation : Z;
  affectedCities : list AffectedCity;
  pd_isOcean : bool
}.

(** [getPopulationInRadius].  Nothing in the [try] block can throw (it is
    arithmetic on numbers and pushes on a local array), so the [catch]
    branch with [fallbackPopulationEstimate] is never taken. *)
Definition getPopulationInRadius (lat0 lon0 radiusKm : R) : PopData :=
  let affected :=
    flat_map (fun city => match cityExposure lat0 lon0 radiusKm city with
                          | Some e => [e]
                          | None => []
                          end) majorCities in
  let total :=
    fold_left (fun t e => (t + affectedPopulation e)%Z) affected 0%Z in
  let total' :=
    match affected with
    | [] =>
        let nearest := fst (findNearestCity lat0 lon0) in
        let densityEstimate :=
          estimateDensityFromNearestCity
            (calculateDistance lat0 lon0 (lat nearest) (lon nearest))
            (population nearest) (radius nearest) in
        let area := PI * radiusKm * radiusKm in
        JS.Math_round (area * densityEstimate)
    | _ :: _ => total
    end in
  mkPopData total' affected ((total' =? 0)%Z && isOcean lat0 lon0).

End PopulationService.

(** ** physicsEngine.js *)

Module PhysicsEngine.

(** Constants of the constructor. *)
Definition G : R := 6.67430e-11.
Definition EARTH_MASS : R := 5.972e24.
Definition EARTH_RADIUS : R := 6371000.
Definition EARTH_SURFACE_GRAVITY : R := 9.81.
Definition DEFAULT_ASTEROID_DENSITY : R := 3000.

(** Asteroid mass (kg) from diameter (m) and density (kg/m^3). *)
Definition calculateMass (diameter density : R) : R :=
  let radius := diameter / 2 in
  let volume := (4 / 3) * PI * radius ^ 3 in
  volume * density.

(** Impact velocity accounting for Earth's gravity. *)
Definition calculateImpactVelocity (initialVelocity angle : R) : R :=
  let escapeVelocity := sqrt (2 * G * EARTH_MASS / EARTH_RADIUS) in
  let angleRad := angle * PI / 180 in
  let verticalComponent := initialVelocity * sin angleRad in
  let horizontalComponent := initialVelocity * cos angleRad in
  let finalVertical :=
    sqrt (verticalComponent * verticalComponent +
          escapeVelocity * escapeVelocity) in
  let finalVelocity :=
    sqrt (finalVertical * finalVertical +
          horizontalComponent * horizontalComponent) in
  finalVelocity.

Record Energy := mkEnergy {
  joules : R;
  tntTons : R;
  megatons : R
}.

Definition calculateImpactEnergy (mass velocity : R) : Energy :=
  let energyJoules := 0.5 * mass * velocity * velocity in
  let tntTons := energyJoules / 4.184e9 in
  let tntMegatons := tntTons / 1e6 in
  mkEnergy energyJoules tntTons tntMegatons.

Record Crater := mkCrater {
  diameter : R;
  depth : R;
  volume : R
}.

(** Crater dimensions from the impact energy (J) and the angle (deg);
    the third parameter of the source, [targetDensity], is unused. *)
Definition calculateCraterSize (energy angle : R) : Crater :=
  let angleRad := angle * PI / 180 in
  let baseDiameter := 1.8 * JS.Math_pow (energy / 1e15) 0.25 in
  let angleFactor := JS.Math_pow (sin angleRad) (1 / 3) in
  let diameter := baseDiameter * angleFactor in
  let depth := diameter / 5 in
  mkCrater diameter depth (PI * (diameter / 2) ^ 2 * depth / 3).

Record Seismic := mkSeismic {
  magnitude : R;
  seismic_description : string;
  radiusKm : R
}.

Definition calculateSeismicEffects (energy : R) : Seismic :=
  let magnitude := (2 / 3) * JS.Math_log10 energy - 4.8 in
  let description :=
    if JS.ltb magnitude 4 then
      "Minor - Often felt, but rarely causes damage"%string
    else if JS.ltb magnitude 5 then
      "Light - Noticeable shaking, minor damage"%string
    else if JS.ltb magnitude 6 then
      "Moderate - Can cause damage to buildings"%string
    else if JS.ltb magnitude 7 then
      "Strong - Major damage in populated areas"%string
    else if JS.ltb magnitude 8 then
      "Major - Serious damage over large areas"%string
    else
      "Great - Catastrophic destruction"%string in
  mkSeismic (Rmax 0 magnitude) description (Rpower 10 (magnitude - 1)).

Record Blast := mkBlast {
  fireball : R;
  radiationRadius : R;
  airblastRadius : R;
  thermalRadius : R
}.

Definition calculateBlastRadius (energy : R) : Blast :=
  let megatons := energy / 4.184e15 in
  let fireball := 40 * JS.Math_pow megatons 0.33 in
  let thermalRadiation := 500 * JS.Math_pow megatons 0.41 in
  let airblast := 350 * JS.Math_pow megatons 0.33 in
  let radiation := 200 * JS.Math_pow megatons 0.41 in
  mkBlast fireball radiation airblast thermalRadiation.

Record Tsunami := mkTsunami {
  initialWaveHeight : R;
  wavelength : R;
  propagationSpeed : R;
  speedKmh : R;
  affectedRadiusKm : R
}.

(** [waterDepth] is [None] when the caller passes [undefined]; the
    default is 4000 m. *)
Definition calculateTsunamiEffects (energy : R) (waterDepth : option R)
  : Tsunami :=
  let waterDepth := match waterDepth with Some w => w | None => 4000 end in
  let megatons := energy / 4.184e15 in
  let waveHeight := sqrt megatons * 10 in
  let wavelength := waterDepth * 50 in
  let speed := sqrt (EARTH_SURFACE_GRAVITY * waterDepth) in
  mkTsunami waveHeight wavelength speed (speed * 3.6) (megatons * 100).

Definition getCasualtySeverity (casualties : Z) : string :=
  if (casualties <? 100)%Z then "Minor"
  else if (casualties <? 1000)%Z then "Moderate"
  else if (casualties <? 10000)%Z then "Serious"
  else if (casualties <? 100000)%Z then "Severe"
  else if (casualties <? 1000000)%Z then "Catastrophic"
  else if (casualties <? 10000000)%Z then "Mass Casualty Event"
  else "Extinction-Level Event".

Record ImpactLocation := mkLocation {
  lat : R;
  lon : R;
  isOcean : bool;
  waterDepth : option R
}.

Record Zone := mkZone {
  zoneName : string;
  zoneRadius : R;
  mortalityRate : R;
  zoneDescription : string
}.

Record ZoneDetail := mkZoneDetail {
  zd_name : string;
  zd_radius : R;
  zd_area : R;
  populationAffected : Z;
  zd_casualties : Z;
  zd_injured : Z;
  zd_mortalityRate : R;
  zd_description : string;
  zd_affectedCities : list PopulationService.AffectedCity
}.

(** The note of the result: the ocean text, or the land text with the
    number of cities of the largest zone. *)
Inductive Note :=
| OceanNote
| LandNote (majorCitiesAffected : nat).

Record Casualties := mkCasualties {
  estimatedCasualties : Z;
  estimatedInjured : Z;
  totalAffected : Z;
  zones : list ZoneDetail;
  affectedCities : list PopulationService.AffectedCity;
  severity : string;
  note : Note
}.

(** The four zones, in the order [Object.entries] visits them. *)
Definition blastZones (blast : Blast) : list Zone :=
  [ mkZone "fireball" (fireball blast / 1000) 1.0 "Total vaporization";
    mkZone "thermal" (thermalRadius blast / 1000) 0.9 "Severe burns, fires";
    mkZone "airblast" (airblastRadius blast / 1000) 0.7
      "Building collapse, flying debris";
    mkZone "radiation" (radiationRadius blast / 1000) 0.3
      "Radiation sickness, structural damage" ].

(** Loop state of [calculateCasualties]. *)
Record CasualtyAcc := mkAcc {
  totalCasualties : Z;
  totalInjured : Z;
  detailedZones : list ZoneDetail;
  largestZoneCities : list PopulationService.AffectedCity;
  maxRadius : R
}.

Definition casualtyStep (loc : ImpactLocation) (acc : CasualtyAcc)
  (zone : Zone) : CasualtyAcc :=
  let popData :=
    PopulationService.getPopulationInRadius (lat loc) (lon loc)
      (zoneRadius zone) in
  let total := IZR (PopulationService.totalPopulation popData) in
  let casualties := JS.Math_round (total * mortalityRate zone) in
  let injured := JS.Math_round (total * (1 - mortalityRate zone) * 0.8) in
  let detail :=
    mkZoneDetail (zoneName zone) (zoneRadius zone)
      (PI * zoneRadius zone * zoneRadius zone)
      (PopulationService.totalPopulation popData)
      casualties injured (mortalityRate zone) (zoneDescription zone)
      (PopulationService.affectedCities popData) in
  let larger := JS.gtb (zoneRadius zone) (maxRadius acc) in
  mkAcc (totalCasualties acc + casualties)%Z
        (totalInjured acc + injured)%Z
        (detailedZones acc ++ [detail])
        (if larger then PopulationService.affectedCities popData
         else largestZoneCities acc)
        (if larger then zoneRadius zone else maxRadius acc).

(** The third parameter of the source, [crater], is unused. *)
Definition calculateCasualties (blast : Blast) (loc : ImpactLocation)
  : Casualties :=
  let acc :=
    fold_left (casualtyStep loc) (blastZones blast) (mkAcc 0 0 [] [] 0) in
  mkCasualties
    (totalCasualties acc) (totalInjured acc)
    (totalCasualties acc + totalInjured acc)%Z
    (detailedZones acc) (largestZoneCities acc)
    (getCasualtySeverity (totalCasualties acc))
    (if isOcean loc then OceanNote
     else LandNote (length (largestZoneCities acc))).

(** Parameters of [simulateImpact]; the optional ones are [None] when the
    caller leaves them out. *)
Record ImpactParams := mkParams {
  p_diameter : R;
  p_velocity : R;
  p_angle : option R;
  p_density : option R;
  p_impactLocation : option ImpactLocation
}.

Record AsteroidProperties := mkProps {
  ap_diameter : R;
  ap_mass : R;
  ap_velocity : R;
  ap_density : R;
  ap_angle : R
}.

Record ImpactResult := mkResult {
  asteroidProperties : AsteroidProperties;
  energy : Energy;
  crater : option Crater;
  seismic : Seismic;
  blast : Blast;
  tsunami : option Tsunami;
  casualties : Casualties;
  impactLocation : ImpactLocation
}.

Definition simulateImpact (params : ImpactParams) : ImpactResult :=
  let diameter := p_diameter params in
  let velocity := p_velocity params in
  let angle := match p_angle params with Some a => a | None => 45 end in
  let density :=
    match p_density params with
    | Some d => d
    | None => DEFAULT_ASTEROID_DENSITY
    end in
  let impactLocation :=
    match p_impactLocation params with
    | Some l => l
    | None => mkLocation 0 0 false (Some 0)
    end in
  let mass := calculateMass diameter density in
  let finalVelocity := calculateImpactVelocity velocity angle in
  let energy := calculateImpactEnergy mass finalVelocity in
  let crater :=
    if negb (isOcean impactLocation)
    then Some (calculateCraterSize (joules energy) angle)
    else None in
  let seismic := calculateSeismicEffects (joules energy) in
  let blast := calculateBlastRadius (joules energy) in
  let tsunami :=
    if isOcean impactLocation
    then Some (calculateTsunamiEffects (joules energy)
                 (waterDepth impactLocation))
    else None in
  let casualties := calculateCasualties blast impactLocation in
  mkResult (mkProps diameter mass finalVelocity density angle)
           energy crater seismic blast tsunami casualties impactLocation.

(** Parameters of [calculateDeflection]; [method] is [None] when left
    out (the default is the kinetic impactor). *)
Record DeflectionParams := mkDeflectionParams {
  asteroidMass : R;
  warningTime : R;
  missDistance : R;
  method : option string
}.

Record Deflection := mkDeflection {
  df_method : string;
  df_description : string;
  requiredDeltaV : R;
  impactorMass : R;
  feasible : bool;
  warningTimeNeeded : Z;
  successProbability : R
}.

Definition calculateDeflection (params : DeflectionParams) : Deflection :=
  let method :=
    match method params with Some m => m | None => "kinetic"%string end in
  let warningTimeSeconds := warningTime params * 24 * 3600 in
  let requiredDeltaV := (missDistance params * 1000) / warningTimeSeconds in
  let '(efficiency, description) :=
    if String.eqb method "kinetic" then
      (0.5, "Kinetic Impactor: High-speed spacecraft collision"%string)
    else if String.eqb method "gravity" then
      (0.01, "Gravity Tractor: Spacecraft gravitational pull"%string)
    else if String.eqb method "nuclear" then
      (10, "Nuclear Deflection: Standoff nuclear detonation"%string)
    else (1, ""%string) in
  let impactorMass :=
    (asteroidMass params * requiredDeltaV) / (efficiency * 1000) in
  mkDeflection method description requiredDeltaV impactorMass
    (JS.gtb (warningTime params) 30 && JS.ltb impactorMass 50000)
    (JS.Math_ceil ((missDistance params * 1000 * asteroidMass params) /
                   (efficiency * 1000 * 100)))
    (if JS.gtb (warningTime params) 365 then 0.9
     else if JS.gtb (warningTime params) 180 then 0.7
     else if JS.gtb (warningTime params) 90 then 0.5
     else 0.2).

(** The deflection request of the API (POST /api/simulate/deflection in
    index.js), after validation: the mass from the diameter and the
    density (default 3000), then [calculateDeflection]. *)
Definition simulateDeflection
  (asteroidDiameter : R) (asteroidDensity : option R)
  (warningTime missDistance : R) (method : option string) : Deflection :=
  let asteroidDensity :=
    match asteroidDensity with Some d => d | None => 3000 end in
  let asteroidMass := calculateMass asteroidDiameter asteroidDensity in
  calculateDeflection
    (mkDeflectionParams asteroidMass warningTime missDistance method).

(** Keplerian elements of [calculateOrbitalPosition]; the four angles are
    in degrees. *)
Record OrbitalElements := mkElements {
  semiMajorAxis : R;
  eccentricity : R;
  inclination : R;
  longitudeOfAscendingNode : R;
  argumentOfPeriapsis : R;
  trueAnomaly : R
}.

Record OrbitalPosition := mkPosition {
  pos_x : R;
  pos_y : R;
  pos_z : R;
  pos_distance : R
}.

(** Orbital position from Keplerian elements. *)
Definition calculateOrbitalPosition (elements : OrbitalElements)
  : OrbitalPosition :=
  let i := inclination elements * PI / 180 in
  let omega := longitudeOfAscendingNode elements * PI / 180 in
  let w := argumentOfPeriapsis elements * PI / 180 in
  let nu := trueAnomaly elements * PI / 180 in
  let r := (semiMajorAxis elements *
            (1 - eccentricity elements * eccentricity elements)) /
           (1 + eccentricity elements * cos nu) in
  let x_orb := r * cos nu in
  let y_orb := r * sin nu in
  let x := (cos omega * cos w - sin omega * sin w * cos i) * x_orb +
           (- cos omega * sin w - sin omega * cos w * cos i) * y_orb in
  let y := (sin omega * cos w + cos omega * sin w * cos i) * x_orb +
           (- sin omega * sin w + cos omega * cos w * cos i) * y_orb in
  let z := (sin w * sin i) * x_orb + (cos w * sin i) * y_orb in
  mkPosition x y z r.

(** The table of [estimatePopulationDensity]: latitude, longitude and
    density (people per km^2) of the major metropolitan areas. *)
Record DenseCity := mkDense {
  dc_lat : R;
  dc_lon : R;
  dc_density : R;
  dc_name : string
}.

Definition denseCities : list DenseCity :=
  [ mkDense 40.7 (-74.0) 11000 "New York";
    mkDense 34.0 (-118.2) 3200 "Los Angeles";
    mkDense 51.5 (-0.1) 5700 "London";
    mkDense 48.8 2.3 21000 "Paris";
    mkDense 35.7 139.7 6400 "Tokyo";
    mkDense 31.2 121.5 3800 "Shanghai";
    mkDense 19.4 (-99.1) 6000 "Mexico City";
    mkDense 28.6 77.2 11000 "Delhi";
    mkDense (-23.5) (-46.6) 7900 "São Paulo";
    mkDense 55.7 37.6 4900 "Moscow";
    mkDense (-33.9) 151.2 2100 "Sydney" ].

(** The search loop of [estimatePopulationDensity]: the closest city so
    far with its distance in degrees; [None] is the start, with no city
    and the distance at Infinity. *)
Definition closestStep (lat0 lon0 : R) (acc : option (DenseCity * R))
  (city : DenseCity) : option (DenseCity * R) :=
  let distance :=
    sqrt ((lat0 - dc_lat city) ^ 2 + (lon0 - dc_lon city) ^ 2) in
  match acc with
  | None => Some (city, distance)
  | Some (_, minDistance) =>
      if JS.ltb distance minDistance then Some (city, distance) else acc
  end.

Definition estimatePopulationDensity (lat0 lon0 : R) (isOcean : bool) : R :=
  if isOcean then 0
  else
    let closest := fold_left (closestStep lat0 lon0) denseCities None in
    let absLat := Rabs lat0 in
    let byLatitude :=
      if JS.gtb absLat 70 then 0.1
      else if JS.gtb absLat 60 then 2
      else if JS.gtb absLat 50 then 30
      else if JS.gtb absLat 30 then 50
      else if JS.gtb absLat 20 then 40
      else 35 in
    match closest with
    | Some (closestCity, minDistance) =>
        if JS.ltb minDistance 2 then dc_density closestCity
        else if JS.ltb minDistance 5 then dc_density closestCity * 0.3
        else byLatitude
    | None => byLatitude
    end.

(** [getUrbanFactor]: the factor of the first listed city closer than one
    degree, 1.0 when there is none. *)
Definition urbanCities : list (R * R * R) :=
  [ (40.7, -74.0, 2.5); (35.7, 139.7, 3.0);
    (28.6, 77.2, 2.8); (31.2, 121.5, 2.7) ].

Fixpoint urbanFactorLoop (lat0 lon0 : R) (l : list (R * R * R)) : R :=
  match l with
  | [] => 1.0
  | (clat, clon, factor) :: rest =>
      let distance := sqrt ((lat0 - clat) ^ 2 + (lon0 - clon) ^ 2) in
      if JS.ltb distance 1 then factor
      else urbanFactorLoop lat0 lon0 rest
  end.

Definition getUrbanFactor (lat0 lon0 : R) : R :=
  urbanFactorLoop lat0 lon0 urbanCities.

(** The first stages of the pipeline on binary64 numbers: [+], [-], [*],
    [/] and [Math.sqrt] are the IEEE-754 operations (round to nearest
    even); [Math.sin], [Math.cos] and [Math.pow], which the language
    leaves to the implementation, are parameters. *)
Module Binary64.
Import Floats.
Local Open Scope float_scope.
Local Set Warnings "-inexact-float".

(** [Math.PI], and the constants of the constructor as the doubles their
    literals denote. *)
Definition Math_PI : float := 0x1.921fb54442d18p+1.
Definition G : float := 6.67430e-11.
Definition EARTH_MASS : float := 5.972e24.
Definition EARTH_RADIUS : float := 6371000.

Section Engine.
Variables Math_sin Math_cos : float -> float.
Variable Math_pow : float -> float -> float.

Definition calculateMass (diameter density : float) : float :=
  let radius := diameter / 2 in
  let volume := (4 / 3) * Math_PI * Math_pow radius 3 in
  volume * density.

Definition calculateImpactVelocity (initialVelocity angle : float) : float :=
  let escapeVelocity := sqrt (2 * G * EARTH_MASS / EARTH_RADIUS) in
  let angleRad := angle * Math_PI / 180 in
  let verticalComponent := initialVelocity * Math_sin angleRad in
  let horizontalComponent := initialVelocity * Math_cos angleRad in
  let finalVertical :=
    sqrt (verticalComponent * verticalComponent +
          escapeVelocity * escapeVelocity) in
  let finalVelocity :=
    sqrt (finalVertical * finalVertical +
          horizontalComponent * horizontalComponent) in
  finalVelocity.

(** [energy.joules] of [calculateImpactEnergy]. *)
Definition energyJoules (mass velocity : float) : float :=
  0.5 * mass * velocity * velocity.

(** [energy.joules] as [simulateImpact] computes it from its
    parameters. *)
Definition impactEnergyJoules (diameter velocity angle density : float)
  : float :=
  energyJoules (calculateMass diameter density)
               (calculateImpactVelocity velocity angle).

End Engine.
End Binary64.

End PhysicsEngine.

(** ** The 3D trajectory integrator (Newtonian two-body simulation) *)

Module Simulation3D.

(** Gravitational constant in km^3/kg/s^2. *)
Definition G : R := 6.6743e-11 / 1000 ^ 3.

Record Vector3D := mkVec { x : R; y : R; z : R }.

Definition zeroVec : Vector3D := mkVec 0 0 0.

Definition magnitude (v : Vector3D) : R :=
  sqrt (x v * x v + y v * y v + z v * z v).

Record Earth := mkEarth {
  e_position : Vector3D;
  e_radiusKm : R;
  e_massKg : R;
  omega : R;
  rotation : R
}.

(** [new Earth(position)]. *)
Definition newEarth (position : Vector3D) : Earth :=
  mkEarth position 6371 5.972e24 ((2 * PI) / 86164) 0.

Definition updateRotation (dt : R) (e : Earth) : Earth :=
  mkEarth (e_position e) (e_radiusKm e) (e_massKg e) (omega e)
          (JS.rem (rotation e + omega e * dt) (2 * PI)).

Record Asteroid := mkAsteroid {
  position : Vector3D;
  velocity : Vector3D;
  acceleration : Vector3D;
  radiusKm : R;
  massKg : R;
  positions : list Vector3D
}.

(** [new Asteroid(position, velocity, radiusKm, massKg)]. *)
Definition newAsteroid (p v : Vector3D) (radiusKm massKg : R) : Asteroid :=
  mkAsteroid p v zeroVec radiusKm massKg [p].

Definition setAcceleration (a : Asteroid) (acc : Vector3D) : Asteroid :=
  mkAsteroid (position a) (velocity a) acc (radiusKm a) (massKg a)
             (positions a).

(** The vector from the asteroid to the Earth, [rVec] of
    [updateAcceleration]. *)
Definition rVec (earth : Earth) (a : Asteroid) : Vector3D :=
  mkVec (x (e_position earth) - x (position a))
        (y (e_position earth) - y (position a))
        (z (e_position earth) - z (position a)).

(** Gravitational acceleration: a = G * M / r^3 * r_vec. *)
Definition updateAcceleration (earth : Earth) (a : Asteroid) : Asteroid :=
  let rVec := rVec earth a in
  let rMag := magnitude rVec in
  if JS.gtb rMag 0 then
    let factor := (G * e_massKg earth) / rMag ^ 3 in
    setAcceleration a
      (mkVec (factor * x rVec) (factor * y rVec) (factor * z rVec))
  else
    setAcceleration a zeroVec.

(** F = ma -> a = F/m. *)
Definition applyForce (force : Vector3D) (a : Asteroid) : Asteroid :=
  setAcceleration a
    (mkVec (x (acceleration a) + x force / massKg a)
           (y (acceleration a) + y force / massKg a)
           (z (acceleration a) + z force / massKg a)).

Definition getDistance (a : Asteroid) (point : Vector3D) : R :=
  magnitude (mkVec (x (position a) - x point)
                   (y (position a) - y point)
                   (z (position a) - z point)).

Record CollisionInfo := mkCollision {
  latitude : R;
  longitude : R;
  impactAngle : R;
  location : string;
  timeToImpact : R
}.

Record AsteroidSimulation3D := mkSim {
  earth : Earth;
  asteroids : list Asteroid;
  totalTime : R;
  isRunning : bool;
  collisionDetected : bool;
  collisionInfo : option CollisionInfo
}.

(** [new AsteroidSimulation3D(earth, asteroids)]. *)
Definition newSimulation (earth : Earth) (asteroids : list Asteroid)
  : AsteroidSimulation3D :=
  mkSim earth asteroids 0 false false None.

(** One asteroid of [propagateNewtonian]: velocity first, then the
    position with the new velocity, then the trajectory history. *)
Definition propagateAsteroid (dt : R) (a : Asteroid) : Asteroid :=
  let acc := acceleration a in
  let v := mkVec (x (velocity a) + x acc * dt)
                 (y (velocity a) + y acc * dt)
                 (z (velocity a) + z acc * dt) in
  let p := mkVec (x (position a) + (x v * dt + 0.5 * x acc * dt * dt))
                 (y (position a) + (y v * dt + 0.5 * y acc * dt * dt))
                 (z (position a) + (z v * dt + 0.5 * z acc * dt * dt)) in
  mkAsteroid p v acc (radiusKm a) (massKg a) (positions a ++ [p]).

Definition propagateNewtonian (dt : R) (sim : AsteroidSimulation3D)
  : AsteroidSimulation3D :=
  mkSim (earth sim) (map (propagateAsteroid dt) (asteroids sim))
        (totalTime sim) (isRunning sim) (collisionDetected sim)
        (collisionInfo sim).

(** The collision test of [checkCollisions]. *)
Definition collides (sim : AsteroidSimulation3D) (a : Asteroid) : bool :=
  JS.leb (getDistance a (e_position (earth sim)))
         (e_radiusKm (earth sim) + radiusKm a).

(** The record built for a colliding asteroid. *)
Definition impactInfo (sim : AsteroidSimulation3D) (a : Asteroid)
  : CollisionInfo :=
  let posMag := magnitude (position a) in
  let velMag := magnitude (velocity a) in
  let dotProduct :=
    x (position a) * x (velocity a) +
    y (position a) * y (velocity a) +
    z (position a) * z (velocity a) in
  let angleRad := acos (dotProduct / (posMag * velMag)) in
  let impactAngle := (angleRad * 180) / PI - 90 in
  let latitude := 90 - (acos (z (position a) / posMag) * 180) / PI in
  let longitude :=
    JS.rem ((JS.Math_atan2 (y (position a)) (x (position a)) * 180) / PI -
            (rotation (earth sim) * 180) / PI) 360 in
  mkCollision latitude longitude impactAngle "To be determined"
              (totalTime sim).

(** The loop of [checkCollisions]: the first colliding asteroid ends
    it. *)
Fixpoint firstCollision (sim : AsteroidSimulation3D) (l : list Asteroid)
  : option CollisionInfo :=
  match l with
  | [] => None
  | a :: rest =>
      if collides sim a then Some (impactInfo sim a)
      else firstCollision sim rest
  end.

(** [checkCollisions]: the returned value and the simulation after the
    call (the flag and the stored record are written on a collision and
    left as they are otherwise). *)
Definition checkCollisions (sim : AsteroidSimulation3D)
  : option CollisionInfo * AsteroidSimulation3D :=
  match firstCollision sim (asteroids sim) with
  | Some info =>
      (Some info,
       mkSim (earth sim) (asteroids sim) (totalTime sim) (isRunning sim)
             true (Some info))
  | None => (None, sim)
  end.

(** [step(dt, applyThrust, thrustForce)]; [thrustForce] is [None] when
    left out. *)
Definition step (dt : R) (applyThrust : bool) (thrustForce : option Vector3D)
  (sim : AsteroidSimulation3D) : AsteroidSimulation3D :=
  let accelerate (a : Asteroid) :=
    let a' := updateAcceleration (earth sim) a in
    match applyThrust, thrustForce with
    | true, Some f => applyForce f a'
    | _, _ => a'
    end in
  let sim1 :=
    mkSim (updateRotation dt (earth sim)) (map accelerate (asteroids sim))
          (totalTime sim) (isRunning sim) (collisionDetected sim)
          (collisionInfo sim) in
  let sim2 := propagateNewtonian dt sim1 in
  let sim3 :=
    mkSim (earth sim2) (asteroids sim2) (totalTime sim2 + dt)
          (isRunning sim2) (collisionDetected sim2) (collisionInfo sim2) in
  snd (checkCollisions sim3).

(** [reset]: the clock and the collision state, nothing else. *)
Definition reset (sim : AsteroidSimulation3D) : AsteroidSimulation3D :=
  mkSim (earth sim) (asteroids sim) 0 false false None.

(** How a call of [run] ends: the promise resolves with the stored
    collision record, or it rejects because [this.asteroids[0]] is
    undefined when the escape test reads it.  Both carry the simulation
    as the call leaves it and the progress reports made so far (the
    percentage and [this.asteroids[0]]). *)
Inductive RunResult :=
| Resolved (info : option CollisionInfo) (sim : AsteroidSimulation3D)
           (reports : list (R * option Asteroid))
| Rejected (sim : AsteroidSimulation3D)
           (reports : list (R * option Asteroid)).

(** Leaving the loop of [run]. *)
Definition finishRun (sim : AsteroidSimulation3D)
  (reports : list (R * option Asteroid)) : RunResult :=
  Resolved (collisionInfo sim)
    (mkSim (earth sim) (asteroids sim) (totalTime sim) false
           (collisionDetected sim) (collisionInfo sim))
    reports.

(** The [while] loop of [run], with [remaining = maxSteps - stepCount]
    turns left.  The suspension every 5000 steps hands control back to
    the host and resumes with the same state. *)
Fixpoint runLoop (remaining : nat) (maxSteps : nat) (dt : R)
  (onProgress : bool) (stepCount : nat) (sim : AsteroidSimulation3D)
  (reports : list (R * option Asteroid)) : RunResult :=
  match remaining with
  | O => finishRun sim reports
  | S remaining' =>
      if collisionDetected sim then finishRun sim reports
      else
        let sim' := step dt false None sim in
        let stepCount' := S stepCount in
        let reports' :=
          if onProgress && (stepCount' mod 500 =? 0)%nat then
            reports ++ [(INR stepCount' / INR maxSteps * 100,
                         hd_error (asteroids sim'))]
          else reports in
        if (1000 <? stepCount')%nat then
          match asteroids sim' with
          | [] => Rejected sim' reports'
          | first :: _ =>
              if JS.gtb (getDistance first (e_position (earth sim')))
                        2000000
              then finishRun sim' reports'
              else runLoop remaining' maxSteps dt onProgress stepCount'
                           sim' reports'
          end
        else runLoop remaining' maxSteps dt onProgress stepCount'
                     sim' reports'
  end.

(** [run(maxSteps, dt, onProgress)]; [onProgress] tells whether a
    callback was passed. *)
Definition run (maxSteps : nat) (dt : R) (onProgress : bool)
  (sim : AsteroidSimulation3D) : RunResult :=
  runLoop maxSteps maxSteps dt onProgress 0
    (mkSim (earth sim) (asteroids sim) (totalTime sim) true
           (collisionDetected sim) (collisionInfo sim))
    [].

(** [createSimulation(params)]: the mass from the radius (km) and the
    density (kg/km^3), a new Earth at the origin and the one asteroid. *)
Definition createSimulation (asteroidRadiusKm asteroidDensityKg : R)
  (initialPositionKm initialVelocityKmS : Vector3D)
  : AsteroidSimulation3D :=
  let volume := (4 / 3) * PI * asteroidRadiusKm ^ 3 in
  let mass := volume * asteroidDensityKg in
  newSimulation (newEarth zeroVec)
    [newAsteroid initialPositionKm initialVelocityKmS asteroidRadiusKm
       mass].

(** The same integrator on binary64 numbers: [+], [-], [*], [/],
    [Math.sqrt] and the comparisons are the IEEE-754 operations;
    [Math.pow], [Math.acos], [Math.atan2] and the remainder [%] are
    parameters.  The gravity computation reports each division it
    executes, and [step] passes the reports on. *)
Module Binary64.
Import Floats.
Local Open Scope float_scope.
Local Set Warnings "-inexact-float".

Record Vector3D := mkVec { x : float; y : float; z : float }.

Definition zeroVec : Vector3D := mkVec 0 0 0.

Definition magnitude (v : Vector3D) : float :=
  sqrt (x v * x v + y v * y v + z v * z v).

Record Earth := mkEarth {
  e_position : Vector3D;
  e_radiusKm : float;
  e_massKg : float;
  omega : float;
  rotation : float
}.

Record Asteroid := mkAsteroid {
  position : Vector3D;
  velocity : Vector3D;
  acceleration : Vector3D;
  radiusKm : float;
  massKg : float;
  positions : list Vector3D
}.

Definition newAsteroid (p v : Vector3D) (radiusKm massKg : float)
  : Asteroid :=
  mkAsteroid p v zeroVec radiusKm massKg [p].

Definition setAcceleration (a : Asteroid) (acc : Vector3D) : Asteroid :=
  mkAsteroid (position a) (velocity a) acc (radiusKm a) (massKg a)
             (positions a).

Definition rVec (earth : Earth) (a : Asteroid) : Vector3D :=
  mkVec (x (e_position earth) - x (position a))
        (y (e_position earth) - y (position a))
        (z (e_position earth) - z (position a)).

(** One executed division of the gravity computation: the distance
    magnitude [rMag] and the divisor [Math.pow(rMag, 3)]. *)
Record Division := mkDivision {
  distanceMagnitude : float;
  divisor : float
}.

Record CollisionInfo := mkCollision {
  latitude : float;
  longitude : float;
  impactAngle : float;
  location : string;
  timeToImpact : float
}.

Record AsteroidSimulation3D := mkSim {
  earth : Earth;
  asteroids : list Asteroid;
  totalTime : float;
  isRunning : bool;
  collisionDetected : bool;
  collisionInfo : option CollisionInfo
}.

Section Integrator.
Variable Math_pow : float -> float -> float.
Variable Math_acos : float -> float.
Variable Math_atan2 : float -> float -> float.
Variable rem : float -> float -> float.

Definition Math_PI : float := 0x1.921fb54442d18p+1.

(** Gravitational constant in km^3/kg/s^2. *)
Definition G : float := 6.6743e-11 / Math_pow 1000 3.

Definition newEarth (position : Vector3D) : Earth :=
  mkEarth position 6371 5.972e24 ((2 * Math_PI) / 86164) 0.

Definition updateRotation (dt : float) (e : Earth) : Earth :=
  mkEarth (e_position e) (e_radiusKm e) (e_massKg e) (omega e)
          (rem (rotation e + omega e * dt) (2 * Math_PI)).

(** [updateAcceleration]: the asteroid with its new acceleration, and
    the divisions executed on the way (one under [rMag > 0], none
    otherwise). *)
Definition updateAcceleration (earth : Earth) (a : Asteroid)
  : Asteroid * list Division :=
  let rVec := rVec earth a in
  let rMag := magnitude rVec in
  if 0 <? rMag then
    let divisor := Math_pow rMag 3 in
    let factor := (G * e_massKg earth) / divisor in
    (setAcceleration a
       (mkVec (factor * x rVec) (factor * y rVec) (factor * z rVec)),
     [mkDivision rMag divisor])
  else
    (setAcceleration a zeroVec, []).

Definition applyForce (force : Vector3D) (a : Asteroid) : Asteroid :=
  setAcceleration a
    (mkVec (x (acceleration a) + x force / massKg a)
           (y (acceleration a) + y force / massKg a)
           (z (acceleration a) + z force / massKg a)).

Definition getDistance (a : Asteroid) (point : Vector3D) : float :=
  magnitude (mkVec (x (position a) - x point)
                   (y (position a) - y point)
                   (z (position a) - z point)).

Definition propagateAsteroid (dt : float) (a : Asteroid) : Asteroid :=
  let acc := acceleration a in
  let v := mkVec (x (velocity a) + x acc * dt)
                 (y (velocity a) + y acc * dt)
                 (z (velocity a) + z acc * dt) in
  let p := mkVec (x (position a) + (x v * dt + 0.5 * x acc * dt * dt))
                 (y (position a) + (y v * dt + 0.5 * y acc * dt * dt))
                 (z (position a) + (z v * dt + 0.5 * z acc * dt * dt)) in
  mkAsteroid p v acc (radiusKm a) (massKg a) (positions a ++ [p]).

Definition collides (sim : AsteroidSimulation3D) (a : Asteroid) : bool :=
  getDistance a (e_position (earth sim)) <=?
  e_radiusKm (earth sim) + radiusKm a.

Definition impactInfo (sim : AsteroidSimulation3D) (a : Asteroid)
  : CollisionInfo :=
  let posMag := magnitude (position a) in
  let velMag := magnitude (velocity a) in
  let dotProduct :=
    x (position a) * x (velocity a) +
    y (position a) * y (velocity a) +
    z (position a) * z (velocity a) in
  let angleRad := Math_acos (dotProduct / (posMag * velMag)) in
  let impactAngle := (angleRad * 180) / Math_PI - 90 in
  let latitude :=
    90 - (Math_acos (z (position a) / posMag) * 180) / Math_PI in
  let longitude :=
    rem ((Math_atan2 (y (position a)) (x (position a)) * 180) / Math_PI -
         (rotation (earth sim) * 180) / Math_PI) 360 in
  mkCollision latitude longitude impactAngle "To be determined"
              (totalTime sim).

Fixpoint firstCollision (sim : AsteroidSimulation3D) (l : list Asteroid)
  : option CollisionInfo :=
  match l with
  | [] => None
  | a :: rest =>
      if collides sim a then Some (impactInfo sim a)
      else firstCollision sim rest
  end.

Definition checkCollisions (sim : AsteroidSimulation3D)
  : option CollisionInfo * AsteroidSimulation3D :=
  match firstCollision sim (asteroids sim) with
  | Some info =>
      (Some info,
       mkSim (earth sim) (asteroids sim) (totalTime sim) (isRunning sim)
             true (Some info))
  | None => (None, sim)
  end.

(** The first loop of [step]: the gravity computation, then the thrust
    if one is asked for, asteroid by asteroid. *)
Fixpoint accelerate (earth : Earth) (applyThrust : bool)
  (thrustForce : option Vector3D) (l : list Asteroid)
  : list Asteroid * list Division :=
  match l with
  | [] => ([], [])
  | a :: rest =>
      let '(a', divisions) := updateAcceleration earth a in
      let a'' :=
        match applyThrust, thrustForce with
        | true, Some f => applyForce f a'
        | _, _ => a'
        end in
      let '(rest', divisions') :=
        accelerate earth applyThrust thrustForce rest in
      (a'' :: rest', divisions ++ divisions')
  end.

(** [step(dt, applyThrust, thrustForce)]: the simulation after the step
    and the divisions its gravity computations executed. *)
Definition step (dt : float) (applyThrust : bool)
  (thrustForce : option Vector3D) (sim : AsteroidSimulation3D)
  : AsteroidSimulation3D * list Division :=
  let '(accelerated, divisions) :=
    accelerate (earth sim) applyThrust thrustForce (asteroids sim) in
  let sim1 :=
    mkSim (updateRotation dt (earth sim)) accelerated
          (totalTime sim) (isRunning sim) (collisionDetected sim)
          (collisionInfo sim) in
  let sim2 :=
    mkSim (earth sim1) (map (propagateAsteroid dt) (asteroids sim1))
          (totalTime sim1) (isRunning sim1) (collisionDetected sim1)
          (collisionInfo sim1) in
  let sim3 :=
    mkSim (earth sim2) (asteroids sim2) (totalTime sim2 + dt)
          (isRunning sim2) (collisionDetected sim2) (collisionInfo sim2) in
  (snd (checkCollisions sim3), divisions).

End Integrator.
End Binary64.

End Simulation3D.

(** ** orbitalMechanics.ts: the Kepler solver *)

Module OrbitalMechanics.

Definition tolerance : R := 1e-8.
Definition maxIterations : nat := 20.

(** The [for] loop of [solveKeplerEquation] with [n] iterations left:
    one Newton-Raphson update, then [break] on convergence. *)
Fixpoint iterate (n : nat) (meanAnomaly eccentricity E : R) : R :=
  match n with
  | O => E
  | S k =>
      let f := E - eccentricity * sin E - meanAnomaly in
      let df := 1 - eccentricity * cos E in
      let deltaE := f / df in
      let E' := E - deltaE in
      if JS.ltb (Rabs deltaE) tolerance then E'
      else iterate k meanAnomaly eccentricity E'
  end.

(** Solve M = E - e sin(E) for E, starting from E = M. *)
Definition solveKeplerEquation (meanAnomaly eccentricity : R) : R :=
  iterate maxIterations meanAnomaly eccentricity meanAnomaly.

(** The same function on binary64 numbers: [+], [-], [*], [/], [abs] and
    [<] are the IEEE-754 operations; [Math.sin] and [Math.cos], which
    the language leaves to the implementation, are parameters. *)
Module Binary64.
Import Floats.
Local Open Scope float_scope.

Section Solver.
Variables Math_sin Math_cos : float -> float.

Definition tolerance : float := 0x1.5798ee2308c3ap-27. (* 1e-8 *)

Fixpoint iterate (n : nat) (meanAnomaly eccentricity E : float)
  : float :=
  match n with
  | O => E
  | S k =>
      let f := E - eccentricity * Math_sin E - meanAnomaly in
      let df := 1 - eccentricity * Math_cos E in
      let deltaE := f / df in
      let E' := E - deltaE in
      if abs deltaE <? tolerance then E'
      else iterate k meanAnomaly eccentricity E'
  end.

Definition solveKeplerEquation (meanAnomaly eccentricity : float)
  : float :=
  iterate maxIterations meanAnomaly eccentricity meanAnomaly.
End Solver.
End Binary64.

(** Astronomical Unit in km. *)
Definition AU : R := 149597870.7.

Record EarthPosition := mkEarthPosition {
  ep_x : R;
  ep_y : R;
  ep_z : R;
  ep_r : R
}.

(** Earth's heliocentric position (km) at a Julian date. *)
Definition getEarthPosition (julianDate : R) : EarthPosition :=
  let d := julianDate - 2451545.0 in
  let L_raw := 280.460 + 0.9856474 * d in
  let L := JS.rem (JS.rem L_raw 360 + 360) 360 in
  let g_raw := 357.528 + 0.9856003 * d in
  let g := JS.rem (JS.rem g_raw 360 + 360) 360 in
  let g_rad := (g * PI) / 180 in
  let lambda_raw := L + 1.915 * sin g_rad + 0.020 * sin (2 * g_rad) in
  let lambda := JS.rem (JS.rem lambda_raw 360 + 360) 360 in
  let lambda_rad := (lambda * PI) / 180 in
  let r := 1.00014 - 0.01671 * cos g_rad - 0.00014 * cos (2 * g_rad) in
  let earth_lambda_raw := lambda_rad + PI in
  let earth_lambda := JS.rem earth_lambda_raw (2 * PI) in
  let x := r * AU * cos earth_lambda in
  let y := r * AU * sin earth_lambda in
  let z := 0 in
  mkEarthPosition x y z (sqrt (x * x + y * y + z * z)).

End OrbitalMechanics.

(** ** Quantities the statements below are written with *)

Module Quantities.
Import PhysicsEngine.

(** Earth's escape velocity, the local [escapeVelocity] of
    [calculateImpactVelocity]. *)
Definition escapeVelocity : R := sqrt (2 * G * EARTH_MASS / EARTH_RADIUS).

(** The density a simulation ran with: the one of the parameters, or
    the default when it is left out. *)
Definition densityUsed (p : ImpactParams) : R :=
  ap_density (asteroidProperties (simulateImpact p)).

(** The angle (degrees) a simulation ran with, and the impact velocity it
    reports ([asteroidProperties.velocity], m/s) in km/s. *)
Definition angleUsed (p : ImpactParams) : R :=
  ap_angle (asteroidProperties (simulateImpact p)).

Definition impactVelocityKms (p : ImpactParams) : R :=
  ap_velocity (asteroidProperties (simulateImpact p)) / 1000.

(** [energy.joules] of the impact pipeline as a function of the diameter
    and of the supplied velocity, the other parameters fixed. *)
Definition energyJoules (angle density : option R)
  (loc : option ImpactLocation) (d v : R) : R :=
  joules (energy (simulateImpact (mkParams d v angle density loc))).

(** The deflection scenario: 140 m asteroid of the default density,
    3650 days of warning, 6400 km miss distance, kinetic impactor. *)
Definition deflectionScenario : Deflection :=
  simulateDeflection 140 None 3650 6400 (Some "kinetic"%string).

(** The formula value of the seismic stage, before the floor at 0: the
    local [magnitude] of [calculateSeismicEffects]. *)
Definition richter (E : R) : R := (2 / 3) * JS.Math_log10 E - 4.8.

(** The constant of the crater law of the code. *)
Definition craterConstant : R := 1.8 * Rpower (PI / 12 * 1e-9) 0.25.

(** A land impact point. *)
Definition land : ImpactLocation := mkLocation 0 0 false (Some 0).

(** The crater diameter of a vertical impact on land, default density. *)
Definition verticalLandDiameter (d v : R) : R :=
  diameter (calculateCraterSize
    (joules (energy (simulateImpact
       (mkParams d v (Some 90) None (Some land))))) 90).



(** Truncated Taylor polynomials on binary64, stand-ins for an
    implementation's [Math.sin] and [Math.cos] where a concrete one is
    needed. *)
Module Standin.
Import Floats.
Local Open Scope float_scope.

Definition taylor_sin (x : float) : float := x - x * x * x / 6.

Definition taylor_cos (x : float) : float := 1 - x * x / 2.

End Standin.

End Quantities.

(** ** Stand-ins for the binary64 integrator *)

Module StandinIntegrator.
Import Floats.
Local Open Scope float_scope.

(** Concrete functions in the place of [Math.pow] (at the exponent 3),
    [Math.acos], [Math.atan2] and [%], where an instance of the
    integrator has to be named. *)
Definition cube_pow (x y : float) : float := x * x * x.

Definition linear_acos (x : float) : float := 0x1.921fb54442d18p+0 - x.

Definition ratio_atan2 (y x : float) : float := y / x.

Definition small_rem (x y : float) : float := x.

(** What is true of every division the gravity computation executes for
    the asteroid [a]: the distance magnitude is [rMag], it is above
    zero, hence not zero, and the divisor is its cube as [Math.pow]
    returns it. *)
Definition gravityDivision (Math_pow : float -> float -> float)
  (planet : Simulation3D.Binary64.Earth)
  (a : Simulation3D.Binary64.Asteroid)
  (d : Simulation3D.Binary64.Division) : Prop :=
  Simulation3D.Binary64.distanceMagnitude d =
    Simulation3D.Binary64.magnitude
      (Simulation3D.Binary64.rVec planet a) /\
  (0 <? Simulation3D.Binary64.distanceMagnitude d) = true /\
  (Simulation3D.Binary64.distanceMagnitude d =? 0) = false /\
  Simulation3D.Binary64.divisor d =
    Math_pow (Simulation3D.Binary64.distanceMagnitude d) 3.

(** The two doubles next to sin(pi/4) = cos(pi/4) = 0.70710678118654752... *)
Definition below_half_sqrt2 : float := 0x1.6a09e667f3bccp-1.
Definition above_half_sqrt2 : float := 0x1.6a09e667f3bcdp-1.

End StandinIntegrator.

(** ** Facts on the JavaScript operations *)

Module JSFacts.

Lemma ltb_true (x y : R) : x < y -> JS.ltb x y = true.
Proof.
  intros H. unfold JS.ltb.
  destruct (Rlt_dec x y); [reflexivity | contradiction].
Qed.

Lemma ltb_false (x y : R) : y <= x -> JS.ltb x y = false.
Proof.
  intros H. unfold JS.ltb. destruct (Rlt_dec x y); [lra | reflexivity].
Qed.




Lemma gtb_iff (x y : R) : JS.gtb x y = true <-> y < x.
Proof.
  unfold JS.gtb, JS.ltb. destruct (Rlt_dec y x); split; intros; easy.
Qed.





Lemma Math_pow_pos (x y : R) : 0 < x -> JS.Math_pow x y = Rpower x y.
Proof.
  intros H. unfold JS.Math_pow.
  destruct (Rlt_dec 0 x); [reflexivity | contradiction].
Qed.

Lemma Rpower_pos (x y : R) : 0 < Rpower x y.
Proof. unfold Rpower. apply exp_pos. Qed.

Lemma pi_gt_3 : 3 < PI.
Proof. pose proof PI2_3_2. lra. Qed.

End JSFacts.

(** ** The impact pipeline *)

Module PhysicsFacts.
Import PhysicsEngine Quantities JSFacts.

Lemma escape_sq :
  escapeVelocity * escapeVelocity = 2 * G * EARTH_MASS / EARTH_RADIUS.
Proof.
  unfold escapeVelocity. apply sqrt_sqrt.
  unfold G, EARTH_MASS, EARTH_RADIUS. lra.
Qed.

Lemma escape_sq_pos : 0 < escapeVelocity * escapeVelocity.
Proof. rewrite escape_sq. unfold G, EARTH_MASS, EARTH_RADIUS. lra. Qed.

Lemma sum_sq_pos (v : R) : 0 < v * v + escapeVelocity * escapeVelocity.
Proof.
  pose proof escape_sq_pos. pose proof (Rle_0_sqr v). unfold Rsqr in *. lra.
Qed.

(** The two square roots of [calculateImpactVelocity] collapse into
    one. *)
Lemma impact_velocity_eq (v angle : R) :
  calculateImpactVelocity v angle =
  sqrt (v * v + escapeVelocity * escapeVelocity).
Proof.
  unfold calculateImpactVelocity. fold escapeVelocity.
  set (t := angle * PI / 180).
  pose proof escape_sq_pos as He.
  rewrite sqrt_sqrt
    by (pose proof (Rle_0_sqr (v * sin t)); unfold Rsqr in *; lra).
  f_equal.
  pose proof (sin2_cos2 t) as H. unfold Rsqr in H.
  replace (v * sin t * (v * sin t) + escapeVelocity * escapeVelocity +
           v * cos t * (v * cos t))
    with (v * v * (sin t * sin t + cos t * cos t) +
          escapeVelocity * escapeVelocity) by ring.
  rewrite H. ring.
Qed.

Lemma impact_velocity_sq (v angle : R) :
  calculateImpactVelocity v angle * calculateImpactVelocity v angle =
  v * v + escapeVelocity * escapeVelocity.
Proof.
  rewrite impact_velocity_eq. apply sqrt_sqrt.
  pose proof (sum_sq_pos v). lra.
Qed.

(** C9 (amended).  In exact (real-number) arithmetic, for every initial
    velocity and every angle, [calculateImpactVelocity] returns
    sqrt(v^2 + v_esc^2) with v_esc = sqrt(2 G M_earth / R_earth): the
    vertical and horizontal parts recombine, so the result does not
    depend on the angle.  (The bound v >= 0 of the claim is not
    needed.) *)
Theorem impact_velocity_closed_form (v angle : R) :
  calculateImpactVelocity v angle =
    sqrt (v * v + escapeVelocity * escapeVelocity) /\
  escapeVelocity = sqrt (2 * G * EARTH_MASS / EARTH_RADIUS) /\
  forall angle', calculateImpactVelocity v angle' =
                 calculateImpactVelocity v angle.
Proof.
  split; [apply impact_velocity_eq |]. split; [reflexivity |].
  intros angle'. rewrite !impact_velocity_eq. reflexivity.
Qed.

Lemma impact_velocity_pos (v angle : R) : 0 < calculateImpactVelocity v angle.
Proof.
  pose proof (impact_velocity_sq v angle) as H.
  pose proof (sum_sq_pos v) as Hp.
  assert (0 <= calculateImpactVelocity v angle)
    by (unfold calculateImpactVelocity; apply sqrt_pos).
  nra.
Qed.

(** The energy of the pipeline in closed form. *)
Lemma energy_joules_closed_form (p : ImpactParams) :
  joules (energy (simulateImpact p)) =
  0.5 * ((4 / 3) * PI * (p_diameter p / 2) ^ 3 * densityUsed p) *
  (p_velocity p * p_velocity p + escapeVelocity * escapeVelocity).
Proof.
  unfold densityUsed, simulateImpact.
  cbn [energy joules calculateImpactEnergy asteroidProperties ap_density].
  rewrite Rmult_assoc, impact_velocity_sq. unfold calculateMass.
  reflexivity.
Qed.

(** C4 (amended).  In exact (real-number) arithmetic, with the angle,
    a positive density and the location fixed, [energy.joules] of the
    impact pipeline is strictly increasing in the diameter
    (0 < d1 < d2, at any velocity) and strictly increasing in the
    supplied velocity (0 <= v1 < v2, at any positive diameter). *)
Theorem energy_strictly_increasing
  (angle density : option R) (loc : option ImpactLocation)
  (d1 d2 v1 v2 : R) :
  0 < densityUsed (mkParams d1 v1 angle density loc) ->
  0 < d1 < d2 ->
  0 <= v1 < v2 ->
  (forall v, energyJoules angle density loc d1 v <
             energyJoules angle density loc d2 v) /\
  (forall d, 0 < d -> energyJoules angle density loc d v1 <
                      energyJoules angle density loc d v2).
Proof.
  intros Hrho Hd Hv. unfold energyJoules.
  pose proof PI_RGT_0 as Hpi.
  assert (Hdens : forall d v,
    densityUsed (mkParams d v angle density loc) =
    densityUsed (mkParams d1 v1 angle density loc)) by reflexivity.
  set (rho := densityUsed (mkParams d1 v1 angle density loc)) in *.
  split.
  - intros v. rewrite !energy_joules_closed_form, !Hdens.
    cbn [p_diameter p_velocity].
    assert (Hc : (d1 / 2) ^ 3 < (d2 / 2) ^ 3).
    { assert (0 < d1 / 2 < d2 / 2) as [Ha Hb] by lra.
      simpl. rewrite !Rmult_1_r.
      assert (d1 / 2 * (d1 / 2) < d2 / 2 * (d2 / 2)) by nra.
      assert (0 < d1 / 2 * (d1 / 2)) by nra.
      nra. }
    pose proof (sum_sq_pos v) as Hk.
    set (k := v * v + escapeVelocity * escapeVelocity) in *.
    assert (0 < rho * k) by (apply Rmult_lt_0_compat; assumption).
    assert (PI * (d1 / 2) ^ 3 < PI * (d2 / 2) ^ 3)
      by (apply Rmult_lt_compat_l; assumption).
    nra.
  - intros d Hd0.
    rewrite !energy_joules_closed_form, !Hdens.
    cbn [p_diameter p_velocity].
    assert (0 < (d / 2) ^ 3) by (apply pow_lt; lra).
    assert (0 < PI * (d / 2) ^ 3)
      by (apply Rmult_lt_0_compat; assumption).
    assert (0 < PI * (d / 2) ^ 3 * rho)
      by (apply Rmult_lt_0_compat; assumption).
    assert (v1 * v1 < v2 * v2) by nra.
    nra.
Qed.

(** A 100 m and a 200 m asteroid, 20 km/s and 30 km/s, default angle,
    density and location. *)
Lemma energy_strictly_increasing_witness :
  (forall v, energyJoules None None None 100 v <
             energyJoules None None None 200 v) /\
  (forall d, 0 < d -> energyJoules None None None d 20000 <
                      energyJoules None None None d 30000).
Proof.
  apply (energy_strictly_increasing None None None 100 200 20000 30000).
  - unfold densityUsed, simulateImpact, DEFAULT_ASTEROID_DENSITY.
    cbn [asteroidProperties ap_density p_density]. lra.
  - lra.
  - lra.
Defined.

Lemma scenario_impactorMass :
  impactorMass deflectionScenario =
  calculateMass 140 3000 * (6400 * 1000 / (3650 * 24 * 3600)) / (0.5 * 1000).
Proof. reflexivity. Qed.

Lemma scenario_impactorMass_bound : 50000 < impactorMass deflectionScenario.
Proof.
  rewrite scenario_impactorMass. unfold calculateMass.
  pose proof pi_gt_3. lra.
Qed.

Lemma scenario_feasible : feasible deflectionScenario = false.
Proof.
  change (feasible deflectionScenario)
    with (JS.gtb 3650 30 && JS.ltb (impactorMass deflectionScenario) 50000).
  rewrite (ltb_false (impactorMass deflectionScenario) 50000)
    by (pose proof scenario_impactorMass_bound; lra).
  apply andb_false_r.
Qed.

Lemma scenario_successProbability :
  successProbability deflectionScenario = 0.9.
Proof.
  change (successProbability deflectionScenario)
    with (if JS.gtb 3650 365 then 0.9
          else if JS.gtb 3650 180 then 0.7
          else if JS.gtb 3650 90 then 0.5 else 0.2).
  unfold JS.gtb. rewrite ltb_true by lra. reflexivity.
Qed.

(** The feasibility rule, for every request. *)
Lemma feasible_formula (p : DeflectionParams) :
  feasible (calculateDeflection p) =
  JS.gtb (warningTime p) 30 &&
  JS.ltb (impactorMass (calculateDeflection p)) 50000.
Proof.
  unfold calculateDeflection.
  destruct (String.eqb _ "kinetic"); [reflexivity |].
  destruct (String.eqb _ "gravity"); [reflexivity |].
  destruct (String.eqb _ "nuclear"); reflexivity.
Qed.

(** C1 (amended).  For the deflection scenario (warning time 3650 days,
    kinetic impactor, miss distance 6400 km, diameter 140 m, default
    density 3000 kg/m^3) the result has successProbability = 0.9 and
    feasible = false: requiredDeltaV is the miss distance in metres over
    the warning time in seconds, impactorMass is
    asteroidMass * requiredDeltaV / (0.5 * 1000), which exceeds 50,000 kg,
    and feasible is (warningTime > 30) AND (impactorMass < 50,000). *)
Theorem deflection_scenario :
  successProbability deflectionScenario = 0.9 /\
  feasible deflectionScenario = false /\
  requiredDeltaV deflectionScenario = 6400 * 1000 / (3650 * 24 * 3600) /\
  impactorMass deflectionScenario =
    calculateMass 140 DEFAULT_ASTEROID_DENSITY *
    requiredDeltaV deflectionScenario / (0.5 * 1000) /\
  50000 < impactorMass deflectionScenario /\
  (forall p : DeflectionParams,
     feasible (calculateDeflection p) =
     JS.gtb (warningTime p) 30 &&
     JS.ltb (impactorMass (calculateDeflection p)) 50000).
Proof.
  split; [apply scenario_successProbability |].
  split; [apply scenario_feasible |].
  split; [reflexivity |].
  split; [reflexivity |].
  split; [apply scenario_impactorMass_bound | apply feasible_formula].
Qed.

(** C1 as stated fails: the scenario is not feasible. *)
Lemma deflection_scenario_not_feasible :
  ~ (successProbability deflectionScenario = 0.9 /\
     feasible deflectionScenario = true).
Proof.
  intros [_ H]. rewrite scenario_feasible in H. discriminate H.
Qed.



Lemma ln_10_pos : 0 < ln 10.
Proof. rewrite <- ln_1. apply ln_increasing; lra. Qed.

Lemma log10_pow10 (n : nat) : JS.Math_log10 (10 ^ n) = INR n.
Proof.
  unfold JS.Math_log10. rewrite ln_pow by lra.
  pose proof ln_10_pos. field. lra.
Qed.

Lemma log10_1 : JS.Math_log10 1 = 0.
Proof. unfold JS.Math_log10. rewrite ln_1. lra. Qed.

(** The felt radius as a power law of the energy. *)
Lemma radiusKm_power_law (E : R) :
  0 < E -> Rpower 10 (richter E - 1) = Rpower 10 (-5.8) * Rpower E (2 / 3).
Proof.
  intros HE. unfold richter, JS.Math_log10.
  replace (2 / 3 * (ln E / ln 10) - 4.8 - 1)
    with (-5.8 + 2 / 3 * (ln E / ln 10)) by lra.
  rewrite Rpower_plus. f_equal.
  unfold Rpower. f_equal. pose proof ln_10_pos. field. lra.
Qed.

(** C2 (amended).  For every positive impact energy E (J) the seismic
    stage returns magnitude = max(0, m) with m = (2/3) * log10(E) - 4.8,
    and radiusKm = 10^(m - 1) from the formula value m itself, which is
    10^(-5.8) * E^(2/3); radiusKm is 10^(magnitude - 1) exactly when m is
    not negative. *)
Theorem seismic_effects (E : R) :
  0 < E ->
  magnitude (calculateSeismicEffects E) = Rmax 0 (richter E) /\
  richter E = (2 / 3) * JS.Math_log10 E - 4.8 /\
  radiusKm (calculateSeismicEffects E) = Rpower 10 (richter E - 1) /\
  radiusKm (calculateSeismicEffects E) = Rpower 10 (-5.8) * Rpower E (2 / 3) /\
  (radiusKm (calculateSeismicEffects E) =
     Rpower 10 (magnitude (calculateSeismicEffects E) - 1) <->
   0 <= richter E).
Proof.
  intros HE.
  change (magnitude (calculateSeismicEffects E)) with (Rmax 0 (richter E)).
  change (radiusKm (calculateSeismicEffects E))
    with (Rpower 10 (richter E - 1)).
  repeat split; try reflexivity.
  - apply radiusKm_power_law, HE.
  - intros H. destruct (Rle_dec 0 (richter E)) as [Hle | Hlt]; [exact Hle |].
    exfalso. rewrite Rmax_left in H by lra.
    assert (Rpower 10 (richter E - 1) < Rpower 10 (0 - 1))
      by (apply Rpower_lt; lra).
    lra.
  - intros H. rewrite Rmax_right by exact H. reflexivity.
Qed.

(** At one gigajoule. *)
Lemma seismic_effects_witness :
  magnitude (calculateSeismicEffects 1e9) = Rmax 0 (richter 1e9) /\
  radiusKm (calculateSeismicEffects 1e9) =
    Rpower 10 (-5.8) * Rpower 1e9 (2 / 3).
Proof.
  assert (H : 0 < 1e9) by lra.
  split.
  - apply (proj1 (seismic_effects 1e9 H)).
  - apply (proj1 (proj2 (proj2 (proj2 (seismic_effects 1e9 H))))).
Defined.

(** C2 as stated fails, at 1e9 J on the magnitude (the code gives 1.2, the
    claimed formula 0.16) and at 1 J on the radius (the code gives
    10^(-5.8), not 10^(0 - 1)). *)
Lemma seismic_claim_fails :
  magnitude (calculateSeismicEffects 1e9) <>
    Rmax 0 (0.67 * JS.Math_log10 1e9 - 5.87) /\
  radiusKm (calculateSeismicEffects 1) <>
    Rpower 10 (magnitude (calculateSeismicEffects 1) - 1).
Proof.
  split.
  - change (magnitude (calculateSeismicEffects 1e9))
      with (Rmax 0 (2 / 3 * JS.Math_log10 1e9 - 4.8)).
    replace 1e9 with (10 ^ 9) by lra.
    rewrite log10_pow10. simpl INR.
    rewrite !Rmax_right by lra. lra.
  - change (magnitude (calculateSeismicEffects 1))
      with (Rmax 0 (2 / 3 * JS.Math_log10 1 - 4.8)).
    change (radiusKm (calculateSeismicEffects 1))
      with (Rpower 10 (2 / 3 * JS.Math_log10 1 - 4.8 - 1)).
    rewrite log10_1. rewrite Rmax_left by lra.
    assert (Rpower 10 (2 / 3 * 0 - 4.8 - 1) < Rpower 10 (0 - 1))
      by (apply Rpower_lt; lra).
    lra.
Qed.

Lemma Rpower_1_l (y : R) : Rpower 1 y = 1.
Proof. unfold Rpower. rewrite ln_1, Rmult_0_r. apply exp_0. Qed.

Lemma Rpower_cube_quarter (d : R) :
  0 < d -> Rpower (d ^ 3) 0.25 = Rpower d 0.75.
Proof.
  intros Hd. rewrite <- (Rpower_pow 3 d Hd), Rpower_mult.
  f_equal. simpl INR. lra.
Qed.

Lemma Rpower_square_quarter (v : R) :
  0 < v -> Rpower (v ^ 2) 0.25 = Rpower v 0.5.
Proof.
  intros Hv. rewrite <- (Rpower_pow 2 v Hv), Rpower_mult.
  f_equal. simpl INR. lra.
Qed.

Lemma craterConstant_pos : 0 < craterConstant.
Proof.
  unfold craterConstant.
  pose proof (Rpower_pos (PI / 12 * 1e-9) 0.25). lra.
Qed.

Lemma impactVelocityKms_pos (p : ImpactParams) : 0 < impactVelocityKms p.
Proof.
  unfold impactVelocityKms, simulateImpact.
  cbn [asteroidProperties ap_velocity].
  pose proof (impact_velocity_pos (p_velocity p)
                (match p_angle p with Some a => a | None => 45 end)).
  lra.
Qed.

(** The impact energy over 1e15 J, from the density, the diameter and
    the impact velocity in km/s. *)
Lemma energy_scaled (p : ImpactParams) :
  joules (energy (simulateImpact p)) / 1e15 =
  PI / 12 * 1e-9 * densityUsed p * p_diameter p ^ 3 * impactVelocityKms p ^ 2.
Proof.
  unfold impactVelocityKms, densityUsed, simulateImpact.
  cbn [energy joules calculateImpactEnergy asteroidProperties ap_density
       ap_velocity].
  unfold calculateMass.
  generalize (calculateImpactVelocity (p_velocity p)
                match p_angle p with Some a => a | None => 45 end).
  generalize (match p_density p with
              | Some d => d
              | None => DEFAULT_ASTEROID_DENSITY
              end).
  intros rho vf. lra.
Qed.

Lemma crater_of_land (p : ImpactParams) :
  isOcean (impactLocation (simulateImpact p)) = false ->
  crater (simulateImpact p) =
  Some (calculateCraterSize (joules (energy (simulateImpact p)))
          (angleUsed p)).
Proof.
  unfold angleUsed, simulateImpact.
  cbn [crater impactLocation energy asteroidProperties ap_angle].
  intros ->. reflexivity.
Qed.

Lemma crater_diameter_closed_form (p : ImpactParams) :
  0 < p_diameter p -> 0 < densityUsed p ->
  diameter (calculateCraterSize (joules (energy (simulateImpact p)))
              (angleUsed p)) =
  craterConstant * Rpower (densityUsed p) 0.25 *
  Rpower (p_diameter p) 0.75 * Rpower (impactVelocityKms p) 0.5 *
  JS.Math_pow (sin (angleUsed p * PI / 180)) (1 / 3).
Proof.
  intros Hd Hrho.
  unfold calculateCraterSize. cbn [diameter].
  rewrite energy_scaled.
  pose proof (impactVelocityKms_pos p) as Hv.
  pose proof PI_RGT_0 as Hpi.
  assert (H0 : 0 < PI / 12 * 1e-9) by lra.
  assert (H3 : 0 < p_diameter p ^ 3) by (apply pow_lt; exact Hd).
  assert (H2 : 0 < impactVelocityKms p ^ 2) by (apply pow_lt; exact Hv).
  assert (H1 : 0 < PI / 12 * 1e-9 * densityUsed p)
    by (apply Rmult_lt_0_compat; assumption).
  assert (H4 : 0 < PI / 12 * 1e-9 * densityUsed p * p_diameter p ^ 3)
    by (apply Rmult_lt_0_compat; assumption).
  rewrite Math_pow_pos by (apply Rmult_lt_0_compat; assumption).
  rewrite <- !Rpower_mult_distr by assumption.
  rewrite Rpower_cube_quarter, Rpower_square_quarter by assumption.
  unfold craterConstant. ring.
Qed.

(** C3 (amended).  With the single constant
    k = 1.8 * (pi/12 * 1e-9)^0.25, for every land impact with diameter
    d > 0 (m), density rho > 0 (kg/m^3), impact velocity v (km/s, as the
    result reports it) and angle theta between 0 and 90 degrees, the
    crater stage returns
    diameter = k * rho^0.25 * d^0.75 * v^0.5 * sin(theta)^(1/3)
    (0 at theta = 0), depth = diameter/5 and
    volume = (pi/3) * (diameter/2)^2 * depth. *)
Theorem crater_scaling_law (p : ImpactParams) :
  0 < p_diameter p ->
  0 < densityUsed p ->
  0 <= angleUsed p <= 90 ->
  isOcean (impactLocation (simulateImpact p)) = false ->
  exists c,
    crater (simulateImpact p) = Some c /\
    diameter c =
      craterConstant * Rpower (densityUsed p) 0.25 *
      Rpower (p_diameter p) 0.75 * Rpower (impactVelocityKms p) 0.5 *
      JS.Math_pow (sin (angleUsed p * PI / 180)) (1 / 3) /\
    depth c = diameter c / 5 /\
    volume c = (PI / 3) * (diameter c / 2) ^ 2 * depth c.
Proof.
  intros Hd Hrho _ Hland.
  exists (calculateCraterSize (joules (energy (simulateImpact p)))
            (angleUsed p)).
  split; [apply crater_of_land, Hland |].
  split; [apply crater_diameter_closed_form; assumption |].
  split; [reflexivity |].
  unfold calculateCraterSize. cbn [volume diameter depth]. field.
Qed.

(** A 100 m asteroid at 20 km/s, default angle and density, on land. *)
Lemma crater_scaling_law_witness :
  exists c,
    crater (simulateImpact (mkParams 100 20000 None None (Some land)))
      = Some c /\
    depth c = diameter c / 5.
Proof.
  destruct (crater_scaling_law (mkParams 100 20000 None None (Some land)))
    as (c & Hc & _ & Hdepth & _).
  - cbn [p_diameter]. lra.
  - unfold densityUsed, simulateImpact, DEFAULT_ASTEROID_DENSITY.
    cbn [asteroidProperties ap_density p_density]. lra.
  - unfold angleUsed, simulateImpact.
    cbn [asteroidProperties ap_angle p_angle]. lra.
  - reflexivity.
  - exists c. split; assumption.
Defined.

Lemma crater_vertical_land (d v : R) (c : Crater) :
  crater (simulateImpact (mkParams d v (Some 90) None (Some land))) = Some c ->
  diameter c = verticalLandDiameter d v.
Proof.
  rewrite crater_of_land by reflexivity.
  intros H. injection H as <-. reflexivity.
Qed.

(** Whatever enters through the velocity, the diameters at d = 1 m and at
    d = 16 m are in the ratio 16^0.75 = 8. *)
Lemma crater_ratio (v : R) :
  0 < verticalLandDiameter 1 v /\
  verticalLandDiameter 16 v = Rpower 16 0.75 * verticalLandDiameter 1 v.
Proof.
  unfold verticalLandDiameter.
  assert (Hang : forall d,
    angleUsed (mkParams d v (Some 90) None (Some land)) = 90)
    by reflexivity.
  assert (Hrho : forall d,
    densityUsed (mkParams d v (Some 90) None (Some land)) = 3000)
    by reflexivity.
  assert (Hvel : forall d,
    impactVelocityKms (mkParams d v (Some 90) None (Some land)) =
    impactVelocityKms (mkParams 1 v (Some 90) None (Some land)))
    by reflexivity.
  pose proof (crater_diameter_closed_form
                (mkParams 1 v (Some 90) None (Some land))) as H1.
  pose proof (crater_diameter_closed_form
                (mkParams 16 v (Some 90) None (Some land))) as H16.
  rewrite Hang, Hrho in H1, H16. rewrite Hvel in H16.
  cbn [p_diameter] in H1, H16.
  rewrite H1, H16 by lra.
  rewrite Rpower_1_l.
  replace (90 * PI / 180) with (PI / 2) by lra.
  rewrite sin_PI2, Math_pow_pos, Rpower_1_l by lra.
  split; [| ring].
  pose proof craterConstant_pos as HK.
  pose proof (Rpower_pos 3000 0.25) as HA.
  pose proof (Rpower_pos
    (impactVelocityKms (mkParams 1 v (Some 90) None (Some land))) 0.5) as HB.
  rewrite !Rmult_1_r.
  apply Rmult_lt_0_compat; [apply Rmult_lt_0_compat |]; assumption.
Qed.

(** C3 as stated fails: no constant k1 gives
    diameter = k1 * d^0.78 * v^0.44 * sin(theta)^0.33 on the land impacts,
    neither with v the supplied velocity in km/s nor with v the impact
    velocity of the result in km/s. *)
Lemma crater_claim_fails :
  (~ exists k1 : R, forall d v theta : R,
       0 < d -> 0 < v -> 0 < theta <= 90 ->
       exists c,
         crater (simulateImpact
                   (mkParams d (v * 1000) (Some theta) None (Some land)))
           = Some c /\
         diameter c =
           k1 * Rpower d 0.78 * Rpower v 0.44 *
           Rpower (sin (theta * PI / 180)) 0.33) /\
  (~ exists k1 : R, forall p : ImpactParams,
       0 < p_diameter p -> 0 < p_velocity p -> 0 < angleUsed p <= 90 ->
       isOcean (impactLocation (simulateImpact p)) = false ->
       exists c,
         crater (simulateImpact p) = Some c /\
         diameter c =
           k1 * Rpower (p_diameter p) 0.78 *
           Rpower (impactVelocityKms p) 0.44 *
           Rpower (sin (angleUsed p * PI / 180)) 0.33).
Proof.
  assert (Hgap : Rpower 16 0.75 < Rpower 16 0.78) by (apply Rpower_lt; lra).
  split.
  - intros [k1 H].
    destruct (crater_ratio (20 * 1000)) as [Hpos Hratio].
    destruct (H 1 20 90) as (c1 & Hc1 & Hd1); try lra.
    destruct (H 16 20 90) as (c16 & Hc16 & Hd16); try lra.
    apply crater_vertical_land in Hc1, Hc16.
    rewrite Hc1 in Hd1. rewrite Hc16 in Hd16.
    rewrite Hd16, Hd1 in Hratio. rewrite Hd1 in Hpos.
    rewrite Rpower_1_l in Hratio, Hpos.
    apply (Rmult_lt_compat_r _ _ _ Hpos) in Hgap.
    lra.
  - intros [k1 H].
    destruct (crater_ratio 20000) as [Hpos Hratio].
    destruct (H (mkParams 1 20000 (Some 90) None (Some land)))
      as (c1 & Hc1 & Hd1);
      [ cbn [p_diameter]; lra | cbn [p_velocity]; lra
      | change (angleUsed _) with 90; lra | reflexivity |].
    destruct (H (mkParams 16 20000 (Some 90) None (Some land)))
      as (c16 & Hc16 & Hd16);
      [ cbn [p_diameter]; lra | cbn [p_velocity]; lra
      | change (angleUsed _) with 90; lra | reflexivity |].
    apply crater_vertical_land in Hc1, Hc16.
    rewrite Hc1 in Hd1. rewrite Hc16 in Hd16.
    change (impactVelocityKms (mkParams 16 20000 (Some 90) None (Some land)))
      with (impactVelocityKms (mkParams 1 20000 (Some 90) None (Some land)))
      in Hd16.
    change (angleUsed _) with 90 in Hd1.
    change (angleUsed _) with 90 in Hd16.
    cbn [p_diameter] in Hd1, Hd16.
    rewrite Hd16, Hd1 in Hratio. rewrite Hd1 in Hpos.
    rewrite Rpower_1_l in Hratio, Hpos.
    apply (Rmult_lt_compat_r _ _ _ Hpos) in Hgap.
    lra.
Qed.

End PhysicsFacts.

(** ** The casualty estimator *)

Module PopulationFacts.
Import PopulationService JSFacts.












End PopulationFacts.

(** ** The trajectory integrator *)

Module SimulationFacts.
Import Simulation3D Quantities JSFacts.

Lemma magnitude_nonneg (v : Vector3D) : 0 <= magnitude v.
Proof. unfold magnitude. apply sqrt_pos. Qed.

(** [rVec] points the other way, its length is the distance. *)
Lemma rVec_magnitude (earth : Earth) (a : Asteroid) :
  magnitude (rVec earth a) = getDistance a (e_position earth).
Proof.
  unfold getDistance, rVec, magnitude. cbn [x y z]. f_equal. ring.
Qed.








End SimulationFacts.

(** ** The Kepler solver *)

Module KeplerFacts.
Import OrbitalMechanics JSFacts.

(** Over the reals: with zero eccentricity the first correction is zero
    and the loop leaves with E = M, whatever the iteration cap. *)
Lemma iterate_circular (n : nat) (M : R) : iterate n M 0 M = M.
Proof.
  destruct n as [| k]; cbn [iterate]; [reflexivity |].
  replace ((M - 0 * sin M - M) / (1 - 0 * cos M)) with 0
    by (rewrite !Rmult_0_l, Rminus_0_r, Rminus_diag; unfold Rdiv; ring).
  rewrite Rabs_R0, ltb_true by (unfold tolerance; lra).
  ring.
Qed.

End KeplerFacts.

Module KeplerBinary64Facts.
Import Floats OrbitalMechanics.Binary64 Quantities.Standin.
Local Open Scope float_scope.

Lemma Prim2SF_zero : Prim2SF 0 = S754_zero false.
Proof. reflexivity. Qed.

(** A finite number is a signed zero or has a mantissa and an exponent. *)
Lemma finite_cases (x : float) :
  is_finite x = true ->
  (exists s, Prim2SF x = S754_zero s) \/
  (exists s m e, Prim2SF x = S754_finite s m e).
Proof.
  unfold is_finite, is_nan, is_infinity.
  rewrite !eqb_spec, abs_spec.
  replace (Prim2SF infinity) with (S754_infinity false) by reflexivity.
  destruct (Prim2SF x) as [s | s | | s m e].
  - intros _. left. eauto.
  - destruct s; intros H; cbv in H; discriminate H.
  - intros H; cbv in H; discriminate H.
  - intros _. right. eauto.
Qed.

(** 0 * x is a signed zero when x is finite. *)
Lemma zero_times_finite (x : float) :
  is_finite x = true -> exists s, Prim2SF (0 * x) = S754_zero s.
Proof.
  intros H. rewrite mul_spec, Prim2SF_zero.
  destruct (finite_cases x H) as [[s ->] | (s & m & e & ->)]; simpl; eauto.
Qed.

(** (x - (+/-0)) - x is +0 when x is finite. *)
Lemma residual_zero (x p : float) (s : bool) :
  is_finite x = true -> Prim2SF p = S754_zero s -> x - p - x = 0.
Proof.
  intros H Hp. apply Prim2SF_inj.
  rewrite !sub_spec, Hp, Prim2SF_zero.
  destruct (finite_cases x H) as [[sx ->] | (sx & m & e & ->)].
  - destruct sx, s; reflexivity.
  - unfold SF64sub, SFsub. rewrite Z.sub_diag. reflexivity.
Qed.

Lemma one_minus_zero (p : float) (s : bool) :
  Prim2SF p = S754_zero s -> 1 - p = 1.
Proof.
  intros Hp. apply Prim2SF_inj. rewrite sub_spec, Hp. reflexivity.
Qed.

Lemma sub_zero_r (x : float) : is_finite x = true -> x - 0 = x.
Proof.
  intros H. apply Prim2SF_inj. rewrite sub_spec, Prim2SF_zero.
  destruct (finite_cases x H) as [[sx Hx] | (sx & m & e & Hx)]; rewrite Hx.
  - destruct sx; reflexivity.
  - reflexivity.
Qed.

Lemma iterate_circular_binary64 (Math_sin Math_cos : float -> float)
  (n : nat) (M : float) :
  is_finite M = true ->
  is_finite (Math_sin M) = true ->
  is_finite (Math_cos M) = true ->
  iterate Math_sin Math_cos (S n) M 0 M = M.
Proof.
  intros HM Hs Hc.
  destruct (zero_times_finite _ Hs) as [s1 H1].
  destruct (zero_times_finite _ Hc) as [s2 H2].
  cbn [iterate].
  rewrite (residual_zero M _ s1 HM H1), (one_minus_zero _ s2 H2).
  replace (0 / 1) with 0 by reflexivity.
  replace (abs 0 <? tolerance) with true by reflexivity.
  apply sub_zero_r, HM.
Qed.

(** C5.  With zero eccentricity [solveKeplerEquation M 0] returns M
    itself.  Over the reals this holds for every M.  On binary64 it holds
    for every finite M with no rounding error at all, the implementation's
    sine and cosine being any functions whose values at M are finite: the
    residual is +0, the derivative 1, the correction +0, and the loop
    leaves at its first turn. *)
Theorem solveKeplerEquation_circular
  (Math_sin Math_cos : float -> float) (M : float) :
  is_finite M = true ->
  is_finite (Math_sin M) = true ->
  is_finite (Math_cos M) = true ->
  solveKeplerEquation Math_sin Math_cos M 0 = M /\
  (M - 0 * Math_sin M - M) / (1 - 0 * Math_cos M) = 0 /\
  forall r : R, OrbitalMechanics.solveKeplerEquation r 0%R = r.
Proof.
  intros HM Hs Hc.
  split; [apply iterate_circular_binary64; assumption |].
  split.
  - destruct (zero_times_finite _ Hs) as [s1 H1].
    destruct (zero_times_finite _ Hc) as [s2 H2].
    rewrite (residual_zero M _ s1 HM H1), (one_minus_zero _ s2 H2).
    reflexivity.
  - intros r. apply KeplerFacts.iterate_circular.
Qed.

(** At M = 1.5 rad, with the Taylor stand-ins for sine and cosine. *)
Lemma solveKeplerEquation_circular_witness :
  solveKeplerEquation taylor_sin taylor_cos 1.5 0 = 1.5.
Proof.
  apply (solveKeplerEquation_circular taylor_sin taylor_cos 1.5);
    reflexivity.
Defined.

End KeplerBinary64Facts.

(** ** The impact velocity and energy on binary64 *)

Module PhysicsBinary64Facts.
Import Floats PhysicsEngine.Binary64 StandinIntegrator.
Local Open Scope float_scope.
Local Set Warnings "-inexact-float".

(** No number is below itself. *)
Lemma ltb_irrefl (x : float) : (x <? x) = false.
Proof.
  rewrite ltb_spec. unfold SFltb, SFcompare.
  destruct (Prim2SF x) as [s | s | | s m e]; try reflexivity.
  - destruct s; reflexivity.
  - rewrite Z.compare_refl, Pos.compare_cont_refl.
    destruct s; reflexivity.
Qed.

(** The angle 0 in radians, and 45 degrees in radians. *)
Lemma angle_0 : 0 * Math_PI / 180 = 0.
Proof. reflexivity. Qed.

Lemma angle_45 : 45 * Math_PI / 180 = 0x1.921fb54442d18p-1.
Proof. reflexivity. Qed.

(** With sin(0) = 0 and cos(0) = 1, as the language requires, the
    velocities 0 and 1e-5 m/s give the same impact velocity at the
    angle 0: the square of 1e-5 is lost in the sum with the square of
    the escape velocity. *)
Lemma velocity_tie (Math_sin Math_cos : float -> float) :
  Math_sin 0 = 0 -> Math_cos 0 = 1 ->
  calculateImpactVelocity Math_sin Math_cos 1e-5 0 =
  calculateImpactVelocity Math_sin Math_cos 0 0.
Proof.
  intros Hs Hc. unfold calculateImpactVelocity.
  rewrite angle_0, Hs, Hc. reflexivity.
Qed.

(** C4 as stated fails.  On binary64, for every implementation of the
    sine, cosine and power with sin(0) = 0 and cos(0) = 1, the energy of
    a 100 m asteroid at the supplied velocity 0 is not below its energy
    at 1e-5 m/s (they are the same number).  In exact arithmetic, at
    density 0 the energy is the same at the diameters 1 m and 2 m. *)
Lemma energy_claim_fails :
  (~ exists (Math_sin Math_cos : float -> float)
            (Math_pow : float -> float -> float),
       Math_sin 0 = 0 /\ Math_cos 0 = 1 /\
       (impactEnergyJoules Math_sin Math_cos Math_pow 100 0 0 3000 <?
        impactEnergyJoules Math_sin Math_cos Math_pow 100 1e-5 0 3000)
       = true) /\
  ~ (Quantities.energyJoules None (Some 0%R) None 1 20000 <
     Quantities.energyJoules None (Some 0%R) None 2 20000)%R.
Proof.
  split.
  - intros (Math_sin & Math_cos & Math_pow & Hs & Hc & H).
    unfold impactEnergyJoules in H.
    rewrite (velocity_tie Math_sin Math_cos Hs Hc), ltb_irrefl in H.
    discriminate H.
  - unfold Quantities.energyJoules.
    rewrite !PhysicsFacts.energy_joules_closed_form.
    unfold Quantities.densityUsed, PhysicsEngine.simulateImpact.
    cbn [PhysicsEngine.asteroidProperties PhysicsEngine.ap_density
         PhysicsEngine.p_density PhysicsEngine.p_diameter
         PhysicsEngine.p_velocity].
    lra.
Qed.

(** At 10000 m/s the velocity at the angle 0 is 15004.202791116726. *)
Lemma velocity_at_0 (Math_sin Math_cos : float -> float) :
  Math_sin 0 = 0 -> Math_cos 0 = 1 ->
  calculateImpactVelocity Math_sin Math_cos 10000 0 =
  15004.202791116726.
Proof.
  intros Hs Hc. unfold calculateImpactVelocity.
  rewrite angle_0, Hs, Hc. reflexivity.
Qed.

(** C9 as stated fails.  On binary64, for every implementation of the
    sine and cosine with sin(0) = 0, cos(0) = 1 and with sin(pi/4) and
    cos(pi/4) rounded to either of the two doubles next to the exact
    value, the impact velocity of 10000 m/s at 45 degrees is not the
    one at 0 degrees: the returned value depends on the angle. *)
Lemma impact_velocity_claim_fails :
  ~ exists Math_sin Math_cos : float -> float,
      Math_sin 0 = 0 /\ Math_cos 0 = 1 /\
      (Math_sin (45 * Math_PI / 180) = below_half_sqrt2 \/
       Math_sin (45 * Math_PI / 180) = above_half_sqrt2) /\
      (Math_cos (45 * Math_PI / 180) = below_half_sqrt2 \/
       Math_cos (45 * Math_PI / 180) = above_half_sqrt2) /\
      calculateImpactVelocity Math_sin Math_cos 10000 45 =
      calculateImpactVelocity Math_sin Math_cos 10000 0.
Proof.
  intros (Math_sin & Math_cos & Hs0 & Hc0 & Hs & Hc & H).
  rewrite (velocity_at_0 Math_sin Math_cos Hs0 Hc0) in H.
  unfold calculateImpactVelocity in H.
  destruct Hs as [Hs | Hs]; destruct Hc as [Hc | Hc];
    rewrite Hs, Hc in H;
    apply (f_equal Prim2SF) in H; vm_compute in H; discriminate H.
Qed.

End PhysicsBinary64Facts.

(** ** The integrator on binary64 *)

Module SimulationBinary64Facts.
Import Floats Simulation3D.Binary64 StandinIntegrator.
Local Open Scope float_scope.
Local Set Warnings "-inexact-float".

(** A number above zero is not zero. *)
Lemma positive_not_zero (x : float) : (0 <? x) = true -> (x =? 0) = false.
Proof.
  rewrite ltb_spec, eqb_spec.
  replace (Prim2SF 0) with (S754_zero false) by reflexivity.
  destruct (Prim2SF x) as [s | s | | s m e]; cbn; try discriminate;
    destruct s; cbn; try discriminate; reflexivity.
Qed.

(** Zero, of either sign, is not above zero. *)
Lemma zero_not_positive (x : float) : (x =? 0) = true -> (0 <? x) = false.
Proof.
  intros H. destruct (0 <? x) eqn:Hlt; [| reflexivity].
  apply positive_not_zero in Hlt. congruence.
Qed.

(** A finite number minus itself is +0. *)
Lemma sub_self (u : float) : is_finite u = true -> u - u = 0.
Proof.
  intros H. apply Prim2SF_inj. rewrite sub_spec.
  replace (Prim2SF 0) with (S754_zero false) by reflexivity.
  destruct (KeplerBinary64Facts.finite_cases u H)
    as [[s ->] | (s & m & e & ->)].
  - destruct s; reflexivity.
  - unfold SF64sub, SFsub. rewrite Z.sub_diag. reflexivity.
Qed.

(** An asteroid whose centre is the Earth's has separation +0. *)
Lemma magnitude_at_centre (planet : Earth) (a : Asteroid) :
  position a = e_position planet ->
  is_finite (x (position a)) = true ->
  is_finite (y (position a)) = true ->
  is_finite (z (position a)) = true ->
  magnitude (rVec planet a) = 0.
Proof.
  intros H Hx Hy Hz. unfold magnitude, rVec. cbn [x y z].
  rewrite <- H, !sub_self by assumption. reflexivity.
Qed.

Section Guard.
Variable Math_pow : float -> float -> float.
Variable Math_acos : float -> float.
Variable Math_atan2 : float -> float -> float.
Variable rem : float -> float -> float.

Lemma updateAcceleration_divisions (planet : Earth) (a : Asteroid) :
  Forall (gravityDivision Math_pow planet a)
         (snd (updateAcceleration Math_pow planet a)).
Proof.
  unfold updateAcceleration.
  destruct (0 <? magnitude (rVec planet a)) eqn:Hgt; cbn [snd].
  - constructor; [| constructor].
    unfold gravityDivision. cbn [distanceMagnitude divisor].
    repeat split; auto using positive_not_zero.
  - constructor.
Qed.

Lemma updateAcceleration_at_zero (planet : Earth) (a : Asteroid) :
  (magnitude (rVec planet a) =? 0) = true ->
  updateAcceleration Math_pow planet a = (setAcceleration a zeroVec, []).
Proof.
  intros H. unfold updateAcceleration.
  rewrite (zero_not_positive _ H). reflexivity.
Qed.

Lemma accelerate_divisions (planet : Earth) (applyThrust : bool)
  (thrustForce : option Vector3D) (l : list Asteroid) :
  Forall (fun d => exists a, In a l /\ gravityDivision Math_pow planet a d)
         (snd (accelerate Math_pow planet applyThrust thrustForce l)).
Proof.
  induction l as [| a rest IH]; cbn [accelerate].
  - constructor.
  - pose proof (updateAcceleration_divisions planet a) as Ha.
    destruct (updateAcceleration Math_pow planet a) as [a' divisions].
    destruct (accelerate Math_pow planet applyThrust thrustForce rest)
      as [rest' divisions'].
    cbn [snd] in *. apply Forall_app. split.
    + eapply Forall_impl; [| exact Ha].
      intros d Hd. exists a. split; [left; reflexivity | exact Hd].
    + eapply Forall_impl; [| exact IH].
      intros d (b & Hin & Hd). exists b. split; [right; exact Hin | exact Hd].
Qed.

Lemma step_divisions (dt : float) (applyThrust : bool)
  (thrustForce : option Vector3D) (sim : AsteroidSimulation3D) :
  snd (step Math_pow Math_acos Math_atan2 rem dt applyThrust thrustForce sim)
  = snd (accelerate Math_pow (earth sim) applyThrust thrustForce
           (asteroids sim)).
Proof.
  unfold step.
  destruct (accelerate Math_pow (earth sim) applyThrust thrustForce
              (asteroids sim)) as [accelerated divisions].
  reflexivity.
Qed.

(** C10.  On binary64, in the gravity computation that [step] runs:
    when the separation [rMag] of the asteroid and the Earth is exactly
    zero (as it is when the two centres coincide) the acceleration is
    set to the zero vector and no division is executed; every division
    that [updateAcceleration] or a whole [step] executes is by the cube
    of a distance magnitude that is above zero, never of a zero one. *)
Theorem updateAcceleration_guard (planet : Earth) (a : Asteroid) :
  (position a = e_position planet ->
   is_finite (x (position a)) = true ->
   is_finite (y (position a)) = true ->
   is_finite (z (position a)) = true ->
   magnitude (rVec planet a) = 0) /\
  ((magnitude (rVec planet a) =? 0) = true ->
   acceleration (fst (updateAcceleration Math_pow planet a)) = zeroVec /\
   snd (updateAcceleration Math_pow planet a) = []) /\
  Forall (gravityDivision Math_pow planet a)
         (snd (updateAcceleration Math_pow planet a)) /\
  (forall (dt : float) (applyThrust : bool)
          (thrustForce : option Vector3D) (sim : AsteroidSimulation3D),
     Forall (fun d => exists b, In b (asteroids sim) /\
                                gravityDivision Math_pow (earth sim) b d)
            (snd (step Math_pow Math_acos Math_atan2 rem
                    dt applyThrust thrustForce sim))).
Proof.
  split; [apply magnitude_at_centre |].
  split; [| split].
  - intros H. rewrite (updateAcceleration_at_zero planet a H).
    split; reflexivity.
  - apply updateAcceleration_divisions.
  - intros dt applyThrust thrustForce sim.
    rewrite step_divisions. apply accelerate_divisions.
Qed.

(** For a separation that is not zero but whose cube is below the
    smallest binary64 number, the guard lets the division run and the
    divisor is zero. *)
Lemma tiny_separation_divisor (planet : Earth) (a : Asteroid) :
  magnitude (rVec planet a) = 1e-110 ->
  Math_pow 1e-110 3 = 0 ->
  snd (updateAcceleration Math_pow planet a) = [mkDivision 1e-110 0].
Proof.
  intros Hmag Hpow. unfold updateAcceleration. rewrite Hmag, Hpow.
  reflexivity.
Qed.

End Guard.

(** An asteroid at the centre of the Earth. *)
Lemma updateAcceleration_guard_witness :
  acceleration
    (fst (updateAcceleration cube_pow
            (newEarth (mkVec 0 0 0))
            (newAsteroid (mkVec 0 0 0) (mkVec 1 2 3) 1 1e12))) = zeroVec /\
  snd (updateAcceleration cube_pow
         (newEarth (mkVec 0 0 0))
         (newAsteroid (mkVec 0 0 0) (mkVec 1 2 3) 1 1e12)) = [].
Proof.
  apply (proj1 (proj2 (updateAcceleration_guard
                  cube_pow
                  linear_acos
                  ratio_atan2
                  small_rem
                  (newEarth (mkVec 0 0 0))
                  (newAsteroid (mkVec 0 0 0) (mkVec 1 2 3) 1 1e12)))).
  reflexivity.
Defined.

End SimulationBinary64Facts.
